(** * icebox: NT guest memory introspection (nt_memory.cpp)

    A shallow embedding of the page-table walker, the page-fault injection
    policy and the paged-memory accessors of [nt::Os], together with the
    properties the specification states about them.

    Machine integers are [Z] with the 64-bit wrap-around written out.  The
    hypervisor transport, the VCPU control and the process/VMA oracle are
    external to nt_memory.cpp: they are an interface ([Backend]) over an
    abstract guest, and every theorem holds for every implementation of it.
    Calls into that interface are recorded in a trace carried by the [Os]
    state, so that "which calls were issued, in which order" can be stated. *)

From Stdlib Require Import ZArith List Lia Bool.
From Stdlib Require Import Strings.Byte Strings.String.
From Stdlib Require Import Zbitwise.
Import ListNotations.
Local Open Scope Z_scope.

(** ** 64-bit arithmetic *)

Definition wrap64 (z : Z) : Z := z mod 2 ^ 64.

Definition u64 (z : Z) : Prop := 0 <= z < 2 ^ 64.

(** [~x] on a [uint64_t]. *)
Definition not64 (z : Z) : Z := wrap64 (Z.lnot z).

(** [x << n] on a [uint64_t]. *)
Definition shl64 (z n : Z) : Z := wrap64 (Z.shiftl z n).

(** [static_cast] of a [uint64_t] to an enumeration over [int]. *)
Definition to_int32 (z : Z) : Z := (z + 2 ^ 31) mod 2 ^ 32 - 2 ^ 31.

Definition PAGE_SIZE : Z := 0x1000.
Definition PAGE_FAULT : Z := 14.

(** ** Little-endian byte strings *)

Definition byte_of_Z (z : Z) : byte :=
  match Byte.of_N (Z.to_N (z mod 256)) with
  | Some b => b
  | None => x00
  end.

(** The object representation of an integer on the (little-endian) host. *)
Fixpoint le_bytes (n : nat) (z : Z) : list byte :=
  match n with
  | O => []
  | S k => byte_of_Z z :: le_bytes k (z / 256)
  end.

Fixpoint le_value (bs : list byte) : Z :=
  match bs with
  | [] => 0
  | b :: rest => Z.of_N (Byte.to_N b) + 256 * le_value rest
  end.

(** Modelled from the spec: endian.hpp is not among the sources; the spec
    says the value is interpreted as little-endian on ingress.  Eight bytes
    are consumed. *)
Definition read_le64 (bs : list byte) : Z := le_value (firstn 8 bs).

(** ** nt::Os::is_kernel_address *)

Definition is_kernel_address (ptr : Z) : bool :=
  negb (Z.land ptr 0xFFF0000000000000 =? 0).

(** ** Data of the walker *)

Record ntphy_t : Type := Build_ntphy_t
  { ptr : Z;
    valid_page : bool;
    zero_page : bool }.

Definition mask (bits : Z) : Z := not64 (shl64 (not64 0) bits).

Definition physical_page (pfn offset : Z) : ntphy_t :=
  Build_ntphy_t (wrap64 (pfn + offset)) true false.

Definition page_fault_required : ntphy_t := Build_ntphy_t 0 false false.

Record dtb_t : Type := Build_dtb_t { val : Z }.

Record proc_t : Type := Build_proc_t
  { id : Z;
    kdtb : dtb_t;
    udtb : dtb_t }.

Record vma_t : Type := Build_vma_t { vma_id : Z }.

Record span_t : Type := Build_span_t
  { addr : Z;
    size : Z }.

(** Modelled from the spec: nt_mmu.hpp is not among the sources.  A virtual
    address is the 64-bit value whose bit fields are, from the low end,
    offset [11:0], pt [20:12], pd [29:21], pdp [38:30] and pml4 [47:39]. *)
Record virt_t : Type := Build_virt_t { virt_value : Z }.

Definition bitfield (raw lo width : Z) : Z :=
  Z.land (Z.shiftr raw lo) (Z.ones width).

Definition offset (v : virt_t) : Z := bitfield (virt_value v) 0 12.
Definition pt (v : virt_t) : Z := bitfield (virt_value v) 12 9.
Definition pd (v : virt_t) : Z := bitfield (virt_value v) 21 9.
Definition pdp (v : virt_t) : Z := bitfield (virt_value v) 30 9.
Definition pml4 (v : virt_t) : Z := bitfield (virt_value v) 39 9.

(** Modelled from the spec: nt_mmu.hpp is not among the sources.  An MMPTE is
    a 64-bit word; [Valid] is bit 0, [LargePage] is bit 7 and
    [PageFrameNumber] is the bit field that starts at bit 12.  The width of
    that field is not fixed by the spec: it is the parameter [pfn_bits]. *)
Record MMPTE : Type := Build_MMPTE { value : Z }.

Definition Valid (e : MMPTE) : bool := Z.testbit (value e) 0.
Definition LargePage (e : MMPTE) : bool := Z.testbit (value e) 7.
Definition PageFrameNumber (pfn_bits : Z) (e : MMPTE) : Z :=
  bitfield (value e) 12 pfn_bits.

(** The MMPTE is zero-initialised and then overwritten by the bytes read. *)
Definition MMPTE_of_bytes (bs : list byte) : MMPTE :=
  Build_MMPTE (read_le64 bs).

(** ** The external collaborators *)

Inductive reg_e : Type := cr3 | cr8 | cs.

Inductive event : Type :=
| EvReadPhysical (phy size : Z)
| EvWritePhysical (phy size : Z)
| EvReadVirtual (dtb vaddr size : Z)
| EvWriteVirtual (dtb vaddr size : Z)
| EvRegisterRead (r : reg_e)
| EvInjectInterrupt (vector code cr2 : Z)
| EvRunToCurrent (tag : string)
| EvMemset (size : Z)
| EvLog (msg : string).

(** The calls of an injection attempt, in order: three register reads, the
    injection, then run-to-current or the error log. *)
Definition inject_events (code src : Z) (ok : bool) : list event :=
  [EvRegisterRead cr8; EvRegisterRead cr3; EvRegisterRead cs;
   EvInjectInterrupt PAGE_FAULT code src;
   if ok then EvRunToCurrent "inject_pf"
   else EvLog "unable to inject page fault"].

(** What nt_memory.cpp calls and does not define: the physical memory
    transport ([memory::]), the VCPU control ([registers::], [state::]) and
    the process/VMA oracle ([vm_area_find], [vm_area_span],
    [nt::is_user_mode]).  Reads leave the paused guest as it is; writes,
    injection and run-to-current return the guest they leave behind. *)
Class Backend (Guest : Type) : Type :=
  { read_physical : Guest -> Z -> Z -> option (list byte);
    write_physical : Guest -> Z -> list byte -> Z -> bool * Guest;
    read_virtual_with_dtb : Guest -> dtb_t -> Z -> Z -> option (list byte);
    write_virtual_with_dtb : Guest -> dtb_t -> Z -> list byte -> Z -> bool * Guest;
    register_read : Guest -> reg_e -> Z;
    inject_interrupt : Guest -> Z -> Z -> Z -> bool * Guest;
    run_to_current : Guest -> Guest;
    vm_area_find : Guest -> proc_t -> Z -> option vma_t;
    vm_area_span : Guest -> proc_t -> vma_t -> option span_t;
    is_user_mode : Z -> bool }.

Inductive irql_e : Type := passive | apc | dispatch.

Definition irql_value (i : irql_e) : Z :=
  match i with
  | passive => 0
  | apc => 1
  | dispatch => 2
  end.

Section Os.

Context {Guest : Type} `{B : Backend Guest}.

(** Modelled from the spec: nt_os.hpp is not among the sources.  Of [nt::Os]
    the code uses the core handle and the counter [num_page_faults_], which
    the spec describes as a monotonically increasing counter: an integer
    that [++] increments.  [trace] is the record of the calls made into the
    backend, oldest first. *)
Record Os : Type := Build_Os
  { core_ : Guest;
    num_page_faults_ : Z;
    trace : list event }.

(** *** State passing *)

Definition M (A : Type) : Type := Os -> A * Os.

Definition ret {A : Type} (a : A) : M A := fun os => (a, os).

Definition bind {A C : Type} (m : M A) (k : A -> M C) : M C :=
  fun os => let (a, os') := m os in k a os'.

Notation "x <- m ;; k" := (bind m (fun x => k))
  (at level 61, m at next level, right associativity).
Notation "m ;;; k" := (bind m (fun _ => k))
  (at level 61, right associativity).

Definition emit (e : event) : M unit :=
  fun os => (tt, Build_Os (core_ os) (num_page_faults_ os) (trace os ++ [e])).

Definition memory_read_physical (phy sz : Z) : M (option (list byte)) :=
  fun os => (read_physical (core_ os) phy sz,
             Build_Os (core_ os) (num_page_faults_ os)
                      (trace os ++ [EvReadPhysical phy sz])).

Definition memory_write_physical (phy : Z) (src : list byte) (sz : Z) : M bool :=
  fun os => let (ok, g) := write_physical (core_ os) phy src sz in
            (ok, Build_Os g (num_page_faults_ os)
                          (trace os ++ [EvWritePhysical phy sz])).

Definition memory_read_virtual_with_dtb (dtb : dtb_t) (vaddr sz : Z)
  : M (option (list byte)) :=
  fun os => (read_virtual_with_dtb (core_ os) dtb vaddr sz,
             Build_Os (core_ os) (num_page_faults_ os)
                      (trace os ++ [EvReadVirtual (val dtb) vaddr sz])).

Definition memory_write_virtual_with_dtb (dtb : dtb_t) (vaddr : Z)
           (src : list byte) (sz : Z) : M bool :=
  fun os => let (ok, g) := write_virtual_with_dtb (core_ os) dtb vaddr src sz in
            (ok, Build_Os g (num_page_faults_ os)
                          (trace os ++ [EvWriteVirtual (val dtb) vaddr sz])).

Definition registers_read (r : reg_e) : M Z :=
  fun os => (register_read (core_ os) r,
             Build_Os (core_ os) (num_page_faults_ os)
                      (trace os ++ [EvRegisterRead r])).

Definition state_inject_interrupt (vector code cr2 : Z) : M bool :=
  fun os => let (ok, g) := inject_interrupt (core_ os) vector code cr2 in
            (ok, Build_Os g (num_page_faults_ os)
                          (trace os ++ [EvInjectInterrupt vector code cr2])).

Definition state_run_to_current (tag : string) : M unit :=
  fun os => (tt, Build_Os (run_to_current (core_ os)) (num_page_faults_ os)
                          (trace os ++ [EvRunToCurrent tag])).

Definition os_vm_area_find (p : proc_t) (src : Z) : M (option vma_t) :=
  fun os => (vm_area_find (core_ os) p src, os).

Definition os_vm_area_span (p : proc_t) (v : vma_t) : M (option span_t) :=
  fun os => (vm_area_span (core_ os) p v, os).

(** [++os.num_page_faults_] *)
Definition incr_num_page_faults : M unit :=
  fun os => (tt, Build_Os (core_ os) (num_page_faults_ os + 1) (trace os)).

(** [FAIL(value, message)]: log and return. *)
Definition FAIL {A : Type} (a : A) (msg : string) : M A :=
  emit (EvLog msg) ;;; ret a.

(** *** The page-table walker *)

Variable pfn_bits : Z.

Definition read_pml4e (virt : virt_t) (dtb : dtb_t) : M (option MMPTE) :=
  let pml4e_base := Z.land (val dtb) (shl64 (mask 40) 12) in
  let pml4e_ptr := wrap64 (pml4e_base + pml4 virt * 8) in
  ok <- memory_read_physical pml4e_ptr 8 ;;
  match ok with
  | None => ret None
  | Some bs => ret (Some (MMPTE_of_bytes bs))
  end.

Definition read_pdpe (virt : virt_t) (pml4e : MMPTE) : M (option MMPTE) :=
  let pdpe_ptr :=
    wrap64 (wrap64 (PageFrameNumber pfn_bits pml4e * PAGE_SIZE) + pdp virt * 8) in
  ok <- memory_read_physical pdpe_ptr 8 ;;
  match ok with
  | None => ret None
  | Some bs => ret (Some (MMPTE_of_bytes bs))
  end.

Definition read_pte (virt : virt_t) (pde : MMPTE) : M (option MMPTE) :=
  let pte_ptr :=
    wrap64 (wrap64 (PageFrameNumber pfn_bits pde * PAGE_SIZE) + pt virt * 8) in
  ok <- memory_read_physical pte_ptr 8 ;;
  match ok with
  | None => ret None
  | Some bs => ret (Some (MMPTE_of_bytes bs))
  end.

Definition read_pde (virt : virt_t) (pdpe : MMPTE) : M (option MMPTE) :=
  let pde_ptr :=
    wrap64 (wrap64 (PageFrameNumber pfn_bits pdpe * PAGE_SIZE) + pd virt * 8) in
  ok <- memory_read_physical pde_ptr 8 ;;
  match ok with
  | None => ret None
  | Some bs => ret (Some (MMPTE_of_bytes bs))
  end.

(** The walker of the anonymous namespace.  [proc] is a pointer that may be
    null; the walker does not use it. *)
Definition virtual_to_physical (p : Z) (proc : option proc_t) (dtb : dtb_t)
  : M (option ntphy_t) :=
  let virt := Build_virt_t (read_le64 (le_bytes 8 p)) in
  pml4e <- read_pml4e virt dtb ;;
  match pml4e with
  | None => ret None
  | Some pml4e =>
    if negb (Valid pml4e) then ret (Some page_fault_required) else
    pdpe <- read_pdpe virt pml4e ;;
    match pdpe with
    | None => ret None
    | Some pdpe =>
      if negb (Valid pdpe) then ret (Some page_fault_required) else
      (* 1g page *)
      if LargePage pdpe then
        let offset := Z.land p (mask 30) in
        let base := Z.land (value pdpe) (shl64 (mask 22) 30) in
        ret (Some (physical_page base offset))
      else
      pde <- read_pde virt pdpe ;;
      match pde with
      | None => ret None
      | Some pde =>
        if negb (Valid pde) then ret (Some page_fault_required) else
        (* 2mb page *)
        if LargePage pde then
          let offset := Z.land p (mask 21) in
          let base := Z.land (value pde) (shl64 (mask 31) 21) in
          ret (Some (physical_page base offset))
        else
        pte <- read_pte virt pde ;;
        match pte with
        | None => ret None
        | Some pte =>
          if negb (Valid pte) then ret (Some page_fault_required) else
          ret (Some (physical_page
                       (wrap64 (PageFrameNumber pfn_bits pte * PAGE_SIZE))
                       (offset virt)))
        end
      end
    end
  end.

(** *** The injection policy *)

Definition read_irql : M Z :=
  v <- registers_read cr8 ;;
  ret (to_int32 v).

Definition is_some {A : Type} (o : option A) : bool :=
  match o with
  | Some _ => true
  | None => false
  end.

Definition try_inject_page_fault (proc : option proc_t) (dtb : dtb_t) (src : Z)
  : M bool :=
  (* disable pf on kernel addresses *)
  if is_kernel_address src then ret false else
  (* disable pf without proc *)
  match proc with
  | None => ret false
  | Some p =>
    (* disable pf in IRQL >= dispatch *)
    irql <- read_irql ;;
    if irql >=? irql_value dispatch then ret false else
    (* disable pf on cr3 mismatch *)
    cr3v <- registers_read cr3 ;;
    if is_some proc && negb (cr3v =? val (kdtb p)) && negb (cr3v =? val (udtb p))
    then ret false else
    if negb (is_some proc) && negb (cr3v =? val dtb) then ret false else
    (* check if input address is valid *)
    opt_vma <- os_vm_area_find p src ;;
    match opt_vma with
    | None => ret false
    | Some vma =>
      (* check size *)
      vma_span <- os_vm_area_span p vma ;;
      match vma_span with
      | None => ret false
      | Some sp =>
        if wrap64 (src + PAGE_SIZE) >? wrap64 (addr sp + size sp)
        then ret false else
        incr_num_page_faults ;;;
        csv <- registers_read cs ;;
        let is_user := is_user_mode csv in
        let code := if is_user then Z.shiftl 1 2 else 0 in
        injected <- state_inject_interrupt PAGE_FAULT code src ;;
        if negb injected then FAIL false "unable to inject page fault" else
        state_run_to_current "inject_pf" ;;;
        ret true
      end
    end
  end.

(** *** The accessors of nt::Os *)

(** [dst] is the result: [Some page] when the call returns true. *)
Definition read_page (p : Z) (proc : option proc_t) (dtb : dtb_t)
  : M (option (list byte)) :=
  nt_phy <- virtual_to_physical p proc dtb ;;
  match nt_phy with
  | None => ret None
  | Some nt_phy =>
    if zero_page nt_phy then
      emit (EvMemset PAGE_SIZE) ;;;
      ret (Some (repeat x00 (Z.to_nat PAGE_SIZE)))
    else
    if valid_page nt_phy then memory_read_physical (ptr nt_phy) PAGE_SIZE else
    ok <- try_inject_page_fault proc dtb p ;;
    if negb ok then ret None else
    memory_read_virtual_with_dtb dtb p PAGE_SIZE
  end.

Definition write_page (p : Z) (src : list byte) (proc : option proc_t)
           (dtb : dtb_t) : M bool :=
  nt_phy <- virtual_to_physical p proc dtb ;;
  match nt_phy with
  | None => ret false
  | Some nt_phy =>
    if valid_page nt_phy then memory_write_physical (ptr nt_phy) src PAGE_SIZE else
    ok <- try_inject_page_fault proc dtb p ;;
    if negb ok then ret false else
    memory_write_virtual_with_dtb dtb p src PAGE_SIZE
  end.

(** [nt::Os::virtual_to_physical]; the result is the [phy_t] value. *)
Definition Os_virtual_to_physical (proc : option proc_t) (dtb : dtb_t) (p : Z)
  : M (option Z) :=
  nt_phy <- virtual_to_physical p proc dtb ;;
  match nt_phy with
  | None => ret None
  | Some nt_phy =>
    if valid_page nt_phy then ret (Some (ptr nt_phy)) else
    ok <- try_inject_page_fault proc dtb p ;;
    if negb ok then ret None else
    nt_phy <- virtual_to_physical p proc dtb ;;
    match nt_phy with
    | None => ret None
    | Some nt_phy =>
      if negb (valid_page nt_phy) then ret None else
      ret (Some (ptr nt_phy))
    end
  end.

(** *** Reading the trace *)

Definition is_inject (e : event) : bool :=
  match e with
  | EvInjectInterrupt _ _ _ => true
  | _ => false
  end.

Definition is_run_to_current (e : event) : bool :=
  match e with
  | EvRunToCurrent _ => true
  | _ => false
  end.

Definition is_memset (e : event) : bool :=
  match e with
  | EvMemset _ => true
  | _ => false
  end.

Definition count_events (f : event -> bool) (l : list event) : Z :=
  Z.of_nat (List.length (filter f l)).

Definition is_read_virtual (e : event) : bool :=
  match e with
  | EvReadVirtual _ _ _ => true
  | _ => false
  end.

Definition is_write_virtual (e : event) : bool :=
  match e with
  | EvWriteVirtual _ _ _ => true
  | _ => false
  end.

Definition is_write_physical (e : event) : bool :=
  match e with
  | EvWritePhysical _ _ => true
  | _ => false
  end.

Definition is_register_read (e : event) : bool :=
  match e with
  | EvRegisterRead _ => true
  | _ => false
  end.

(** What a result says without the page offset: whether it resolved, and
    the 4 KiB frame number of its address. *)
Definition frame_of (r : ntphy_t) : bool * Z :=
  (valid_page r, Z.shiftr (ptr r) 12).

(** In [evs] every run-to-current comes directly after an injection. *)
Definition run_follows_inject (evs : list event) : Prop :=
  forall pre tag post,
    evs = pre ++ EvRunToCurrent tag :: post ->
    exists pre' vector code cr2,
      pre = pre' ++ [EvInjectInterrupt vector code cr2].

(** The entry that an 8-byte read at [phy] delivers in the guest [g]. *)
Definition entry_at (g : Guest) (phy : Z) : option MMPTE :=
  option_map MMPTE_of_bytes (read_physical g phy 8).

Definition pml4e_ptr (dtb : dtb_t) (p : Z) : Z :=
  wrap64 (Z.land (val dtb) (shl64 (mask 40) 12)
          + pml4 (Build_virt_t (read_le64 (le_bytes 8 p))) * 8).

(** The address of the entry of the next level, [index] being this level's
    index of the virtual address. *)
Definition next_ptr (e : MMPTE) (index : Z) : Z :=
  wrap64 (wrap64 (PageFrameNumber pfn_bits e * PAGE_SIZE) + index * 8).

(** *** The walk as a path

    The same walk, as the result and the list of the physical addresses read,
    in order: the form in which the theorems below reason about it.
    [virtual_to_physical_path] proves the two equal. *)

Definition walk_path (g : Guest) (p : Z) (dtb : dtb_t)
  : option ntphy_t * list Z :=
  let virt := Build_virt_t (read_le64 (le_bytes 8 p)) in
  let a1 := pml4e_ptr dtb p in
  match entry_at g a1 with
  | None => (None, [a1])
  | Some e1 =>
    if negb (Valid e1) then (Some page_fault_required, [a1]) else
    let a2 := next_ptr e1 (pdp virt) in
    match entry_at g a2 with
    | None => (None, [a1; a2])
    | Some e2 =>
      if negb (Valid e2) then (Some page_fault_required, [a1; a2]) else
      if LargePage e2 then
        (Some (physical_page (Z.land (value e2) (shl64 (mask 22) 30))
                             (Z.land p (mask 30))), [a1; a2])
      else
      let a3 := next_ptr e2 (pd virt) in
      match entry_at g a3 with
      | None => (None, [a1; a2; a3])
      | Some e3 =>
        if negb (Valid e3) then (Some page_fault_required, [a1; a2; a3]) else
        if LargePage e3 then
          (Some (physical_page (Z.land (value e3) (shl64 (mask 31) 21))
                               (Z.land p (mask 21))), [a1; a2; a3])
        else
        let a4 := next_ptr e3 (pt virt) in
        match entry_at g a4 with
        | None => (None, [a1; a2; a3; a4])
        | Some e4 =>
          if negb (Valid e4)
          then (Some page_fault_required, [a1; a2; a3; a4])
          else (Some (physical_page
                        (wrap64 (PageFrameNumber pfn_bits e4 * PAGE_SIZE))
                        (offset virt)), [a1; a2; a3; a4])
        end
      end
    end
  end.

Definition reads (l : list Z) : list event :=
  map (fun a => EvReadPhysical a 8) l.

(** [os] after the events [evs], guest and counter as they were. *)
Definition logged (evs : list event) (os : Os) : Os :=
  Build_Os (core_ os) (num_page_faults_ os) (trace os ++ evs).

(** The 8-byte read at [a] delivers an entry with Valid=1. *)
Definition read_valid (g : Guest) (a : Z) : Prop :=
  exists e, entry_at g a = Some e /\ Valid e = true.

(** The whole page at [src] lies in a VMA of [p]: the fifth and sixth
    predicates of the policy, over the integers. *)
Definition page_in_vma (g : Guest) (p : proc_t) (src : Z) : Prop :=
  exists v sp,
    vm_area_find g p src = Some v
    /\ vm_area_span g p v = Some sp
    /\ src + 4096 <= addr sp + size sp.

End Os.

Arguments Os Guest : clear implicits.
Arguments M Guest A : clear implicits.

(** ** A scripted guest

    Physical memory is a list of 8-byte words by address; the registers, the
    answer of the injection primitive, the words that the guest's fault
    handler maps in, and the one VMA of every process are scripted. *)

Record Mock : Type := Build_Mock
  { words : list (Z * Z);
    regs : reg_e -> Z;
    inject_answer : bool;
    handler_words : list (Z * Z);
    the_vma : option span_t }.

Fixpoint lookup (k : Z) (l : list (Z * Z)) : option Z :=
  match l with
  | [] => None
  | (k', v) :: rest => if k =? k' then Some v else lookup k rest
  end.

Definition mock_read (g : Mock) (phy sz : Z) : option (list byte) :=
  match lookup phy (words g) with
  | Some v => Some (le_bytes (Z.to_nat sz) v)
  | None => None
  end.

Definition mock_find (g : Mock) (p : proc_t) (a : Z) : option vma_t :=
  match the_vma g with
  | Some sp =>
    if (addr sp <=? a) && (a <? addr sp + size sp)
    then Some (Build_vma_t 0) else None
  | None => None
  end.

#[export] Instance mock_backend : Backend Mock :=
  {| read_physical := mock_read;
     write_physical := fun g _ _ _ => (false, g);
     read_virtual_with_dtb := fun _ _ _ _ => None;
     write_virtual_with_dtb := fun g _ _ _ _ => (false, g);
     register_read := regs;
     inject_interrupt := fun g _ _ _ => (inject_answer g, g);
     run_to_current := fun g =>
       Build_Mock (handler_words g ++ words g) (regs g) (inject_answer g)
                  [] (the_vma g);
     vm_area_find := mock_find;
     vm_area_span := fun g _ _ => the_vma g;
     is_user_mode := fun c => negb (Z.land c 3 =? 0) |}.

Definition mock_regs (vcr3 vcr8 vcs : Z) (r : reg_e) : Z :=
  match r with
  | cr3 => vcr3
  | cr8 => vcr8
  | cs => vcs
  end.

Definition mock_os (g : Mock) : Os Mock := Build_Os g 0 [].

(** *** Scripted scenarios

    The page tables hang off DTB 0x1000: PML4 at 0x1000, PDPT at 0x2000, PD
    at 0x3000, PT at 0x4000. *)

Definition dtb_1000 : dtb_t := Build_dtb_t 0x1000.

Definition proc_1 : proc_t := Build_proc_t 1 dtb_1000 dtb_1000.

Definition proc_2 : proc_t := Build_proc_t 2 (Build_dtb_t 0x7000) (Build_dtb_t 0x8000).

(** Four Valid levels; the page of virtual address 0 is frame 5. *)
Definition guest_4k : Mock :=
  Build_Mock [(0x1000, 0x2001); (0x2000, 0x3001); (0x3000, 0x4001);
              (0x4000, 0x5001)]
             (mock_regs 0x1000 0 0x10) true [] None.

(** [guest_4k] with a word of data in frame 5. *)
Definition guest_4k_data : Mock :=
  Build_Mock ((0x5000, 0x11223344) :: words guest_4k)
             (mock_regs 0x1000 0 0x10) true [] None.

(** The same memory seen with other registers and a VMA. *)
Definition guest_4k' : Mock :=
  Build_Mock (words guest_4k) (mock_regs 0x9000 2 0x33) false []
             (Some (Build_span_t 0 0x1000)).

(** PD entry 0 maps a 2 MiB page; bit 46 of the entry is set. *)
Definition guest_2m : Mock :=
  Build_Mock [(0x1000, 0x2001); (0x2000, 0x3001); (0x3000, 0x4000000000E7)]
             (mock_regs 0x1000 0 0x10) true [] None.

(** PDPT entry 0 maps a 1 GiB page; bit 46 of the entry is set. *)
Definition guest_1g : Mock :=
  Build_Mock [(0x1000, 0x2001); (0x2000, 0x400000000081)]
             (mock_regs 0x1000 0 0x10) true [] None.

(** The PTE of 0x10800 is not Valid; the guest runs [proc_1] in user mode at
    passive level, a VMA covers [0x10000, 0x20000), and the guest's fault
    handler maps frame 5. *)
Definition guest_paged_out : Mock :=
  Build_Mock [(0x1000, 0x2001); (0x2000, 0x3001); (0x3000, 0x4001);
              (0x4080, 0)]
             (mock_regs 0x1000 0 0x33) true [(0x4080, 0x5001)]
             (Some (Build_span_t 0x10000 0x10000)).

(** As [guest_paged_out], at dispatch level. *)
Definition guest_dispatch : Mock :=
  Build_Mock (words guest_paged_out) (mock_regs 0x1000 2 0x33) true
             (handler_words guest_paged_out) (the_vma guest_paged_out).

(** As [guest_paged_out], the injection primitive failing. *)
Definition guest_no_inject : Mock :=
  Build_Mock (words guest_paged_out) (mock_regs 0x1000 0 0x33) false
             (handler_words guest_paged_out) (the_vma guest_paged_out).

(** As [guest_paged_out], the VMA ending 0x800 bytes after 0x10800. *)
Definition guest_short_vma : Mock :=
  Build_Mock (words guest_paged_out) (mock_regs 0x1000 0 0x33) true
             (handler_words guest_paged_out)
             (Some (Build_span_t 0x10000 0x1000)).

(** The PTE of the kernel address 0xFFFF800000001000 is not Valid. *)
Definition guest_kernel : Mock :=
  Build_Mock [(0x1800, 0x2001); (0x2000, 0x3001); (0x3000, 0x4001);
              (0x4008, 0)]
             (mock_regs 0x1000 0 0x10) true [(0x4008, 0x5001)]
             (Some (Build_span_t 0xFFFF800000000000 0x10000)).

(** * Properties *)

(** ** Arithmetic of the 64-bit words *)

(** [mask n] is the n-bit all-ones value. *)
Lemma mask_ones (n : Z) : 0 <= n <= 64 -> mask n = Z.ones n.
Proof.
  intros Hn. unfold mask, not64, shl64, wrap64.
  change (Z.lnot 0 mod 2 ^ 64) with (Z.ones 64).
  apply Z.bits_inj'. intros i Hi.
  rewrite (Z.testbit_ones_nonneg n i) by lia.
  destruct (Z.ltb_spec i 64) as [Hlt|Hge].
  - rewrite Z.mod_pow2_bits_low by lia.
    rewrite Z.lnot_spec by lia.
    rewrite Z.mod_pow2_bits_low by lia.
    rewrite Z.shiftl_spec by lia.
    destruct (Z.ltb_spec i n) as [Hin|Hin].
    + rewrite Z.testbit_neg_r by lia. reflexivity.
    + rewrite Z.testbit_ones_nonneg by lia.
      destruct (Z.ltb_spec (i - n) 64); [reflexivity|lia].
  - rewrite Z.mod_pow2_bits_high by lia.
    destruct (Z.ltb_spec i n); [lia|reflexivity].
Qed.

Lemma wrap64_range (z : Z) : u64 (wrap64 z).
Proof. unfold u64, wrap64. apply Z.mod_pos_bound. lia. Qed.

Lemma wrap64_small (z : Z) : u64 z -> wrap64 z = z.
Proof. unfold u64, wrap64. intros H. apply Z.mod_small. exact H. Qed.

Lemma wrap64_le (z : Z) : 0 <= z -> wrap64 z <= z.
Proof. unfold wrap64. intros H. apply Z.mod_le; lia. Qed.

Lemma byte_of_Z_value (z : Z) : Z.of_N (Byte.to_N (byte_of_Z z)) = z mod 256.
Proof.
  unfold byte_of_Z.
  assert (Hr : 0 <= z mod 256 < 256) by (apply Z.mod_pos_bound; lia).
  destruct (Byte.of_N (Z.to_N (z mod 256))) as [b|] eqn:E.
  - apply Byte.to_of_N in E. rewrite E. apply Z2N.id. lia.
  - apply Byte.of_N_None_iff in E. lia.
Qed.

Lemma le_value_le_bytes (n : nat) (z : Z) :
  le_value (le_bytes n z) = z mod 2 ^ (8 * Z.of_nat n).
Proof.
  revert z. induction n as [|n IH]; intros z.
  - simpl. rewrite Z.mod_1_r. reflexivity.
  - cbn [le_bytes le_value]. rewrite byte_of_Z_value, IH.
    replace (8 * Z.of_nat (S n)) with (8 + 8 * Z.of_nat n) by lia.
    rewrite Z.pow_add_r by lia. change (2 ^ 8) with 256.
    rewrite Z.rem_mul_r by lia. reflexivity.
Qed.

Lemma le_bytes_length (n : nat) (z : Z) : List.length (le_bytes n z) = n.
Proof. revert z. induction n; intros; simpl; auto. Qed.

Lemma le_value_range (bs : list byte) :
  0 <= le_value bs < 2 ^ (8 * Z.of_nat (List.length bs)).
Proof.
  induction bs as [|b bs IH].
  - simpl. lia.
  - cbn [le_value List.length].
    replace (8 * Z.of_nat (S (List.length bs)))
      with (8 + 8 * Z.of_nat (List.length bs)) by lia.
    rewrite Z.pow_add_r by lia. change (2 ^ 8) with 256.
    pose proof (Byte.to_N_bounded b). lia.
Qed.

Lemma read_le64_range (bs : list byte) : u64 (read_le64 bs).
Proof.
  unfold u64, read_le64.
  pose proof (le_value_range (firstn 8 bs)) as H.
  pose proof (firstn_le_length 8 bs) as Hl.
  assert (2 ^ (8 * Z.of_nat (List.length (firstn 8 bs))) <= 2 ^ 64).
  { apply Z.pow_le_mono_r; lia. }
  lia.
Qed.

Lemma read_le64_le_bytes (p : Z) : read_le64 (le_bytes 8 p) = wrap64 p.
Proof.
  unfold read_le64. rewrite firstn_all2 by (rewrite le_bytes_length; lia).
  rewrite le_value_le_bytes. reflexivity.
Qed.

Lemma land_bound_l (x y n : Z) :
  0 <= n -> 0 <= x < 2 ^ n -> 0 <= Z.land x y < 2 ^ n.
Proof.
  intros Hn Hx.
  rewrite <- (Z.mod_small x (2 ^ n)) by exact Hx.
  rewrite <- Z.land_ones by exact Hn.
  rewrite <- Z.land_assoc, (Z.land_comm (Z.ones n) y), Z.land_assoc.
  rewrite Z.land_ones by exact Hn.
  apply Z.mod_pos_bound. apply Z.pow_pos_nonneg; lia.
Qed.

Lemma land_bound_r (x y n : Z) :
  0 <= n -> 0 <= y < 2 ^ n -> 0 <= Z.land x y < 2 ^ n.
Proof. intros Hn Hy. rewrite Z.land_comm. apply land_bound_l; assumption. Qed.

Lemma land_land_consts (a b c d : Z) :
  Z.land c d = 0 -> Z.land (Z.land a c) (Z.land b d) = 0.
Proof.
  intros H.
  replace (Z.land (Z.land a c) (Z.land b d))
    with (Z.land (Z.land a b) (Z.land c d)).
  - rewrite H. apply Z.land_0_r.
  - rewrite <- !Z.land_assoc. f_equal.
    rewrite !Z.land_assoc. f_equal. apply Z.land_comm.
Qed.

Lemma add_disjoint_lor (a b : Z) : Z.land a b = 0 -> a + b = Z.lor a b.
Proof.
  intros H. rewrite <- (Z.lxor_lor a b H). apply Z.add_nocarry_lxor. exact H.
Qed.

(** [base + offset] of a large page: the sum neither carries nor wraps. *)
Lemma large_page_sum (raw p hi lo : Z) :
  0 <= hi < 2 ^ 64 -> 0 <= lo -> Z.land hi lo = 0 -> Z.lor hi lo < 2 ^ 64 ->
  wrap64 (Z.land raw hi + Z.land p lo) = Z.lor (Z.land raw hi) (Z.land p lo).
Proof.
  intros Hhi Hlo Hd Hor.
  rewrite add_disjoint_lor by (apply land_land_consts; exact Hd).
  apply wrap64_small. unfold u64.
  assert (H1 : 0 <= Z.land raw hi) by (apply Z.land_nonneg; lia).
  assert (H2 : 0 <= Z.land p lo) by (apply Z.land_nonneg; lia).
  split; [apply Z.lor_nonneg; lia|].
  rewrite <- add_disjoint_lor by (apply land_land_consts; exact Hd).
  assert (Hs : Z.land raw hi + Z.land p lo
               = Z.land (Z.lor (Z.land raw hi) (Z.land p lo)) (Z.lor hi lo)).
  { rewrite add_disjoint_lor by (apply land_land_consts; exact Hd).
    apply Z.bits_inj'. intros i Hi.
    rewrite !Z.land_spec, !Z.lor_spec, !Z.land_spec.
    destruct (Z.testbit raw i), (Z.testbit hi i), (Z.testbit p i),
      (Z.testbit lo i); reflexivity. }
  rewrite Hs.
  assert (Hb : 0 <= Z.lor hi lo < 2 ^ 64) by (split; [apply Z.lor_nonneg|]; lia).
  pose proof (land_bound_r (Z.lor (Z.land raw hi) (Z.land p lo)) (Z.lor hi lo) 64
                ltac:(lia) Hb).
  lia.
Qed.

(** On entries whose bits [51:46] are clear, the frame masks of the walker
    select what masks that stop at bit 45 select. *)
Lemma large_page_masks_agree (raw : Z) :
  Z.land raw 0xFC00000000000 = 0 ->
  Z.land raw 0xFFFFFC0000000 = Z.land raw 0x3FFFC0000000
  /\ Z.land raw 0xFFFFFFFE00000 = Z.land raw 0x3FFFFFE00000.
Proof.
  intros H.
  change 0xFFFFFC0000000 with (Z.lor 0x3FFFC0000000 0xFC00000000000).
  change 0xFFFFFFFE00000 with (Z.lor 0x3FFFFFE00000 0xFC00000000000).
  rewrite !Z.land_lor_distr_r, H, !Z.lor_0_r. split; reflexivity.
Qed.

Lemma bitfield_range (raw lo width : Z) :
  0 <= width -> 0 <= bitfield raw lo width < 2 ^ width.
Proof.
  intros H. unfold bitfield. rewrite Z.land_ones by exact H.
  apply Z.mod_pos_bound. apply Z.pow_pos_nonneg; lia.
Qed.

Lemma PageFrameNumber_range (pfn_bits : Z) (e : MMPTE) :
  u64 (value e) -> 0 <= PageFrameNumber pfn_bits e < 2 ^ 52.
Proof.
  unfold u64, PageFrameNumber, bitfield. intros H.
  apply land_bound_l; [lia|].
  rewrite Z.shiftr_div_pow2 by lia.
  split.
  - apply Z.div_pos; lia.
  - apply Z.div_lt_upper_bound; lia.
Qed.

Lemma offset_of_wrapped (p : Z) :
  offset (Build_virt_t (read_le64 (le_bytes 8 p))) = Z.land p 0xFFF.
Proof.
  rewrite read_le64_le_bytes. unfold offset, bitfield, wrap64.
  cbn [virt_value]. rewrite Z.shiftr_0_r.
  rewrite <- (Z.land_ones p 64) by lia.
  rewrite <- Z.land_assoc. reflexivity.
Qed.

(** [pfn * PAGE_SIZE + offset] of a 4 KiB page. *)
Lemma page_sum (pfn p : Z) :
  0 <= pfn < 2 ^ 52 ->
  wrap64 (wrap64 (pfn * PAGE_SIZE) + Z.land p 0xFFF)
  = Z.lor (pfn * 4096) (Z.land p 0xFFF).
Proof.
  intros H. unfold PAGE_SIZE.
  change 0x1000 with 4096.
  rewrite (wrap64_small (pfn * 4096)) by (unfold u64; lia).
  assert (Hl : 0 <= Z.land p 0xFFF < 2 ^ 12).
  { apply land_bound_r; [lia|]. simpl. lia. }
  assert (Hd : Z.land (pfn * 4096) (Z.land p 0xFFF) = 0).
  { change 4096 with (2 ^ 12). rewrite <- Z.shiftl_mul_pow2 by lia.
    change 0xFFF with (Z.ones 12).
    apply Z.bits_inj'. intros i Hi.
    rewrite !Z.land_spec, Z.bits_0.
    destruct (Z.ltb_spec i 12).
    - rewrite Z.shiftl_spec_low by lia. reflexivity.
    - rewrite Z.ones_spec_high by lia.
      rewrite Bool.andb_false_r, Bool.andb_false_r. reflexivity. }
  rewrite <- add_disjoint_lor by exact Hd.
  apply wrap64_small. unfold u64. change (2 ^ 12) with 4096 in Hl. lia.
Qed.

(** An address that is not a kernel address has its bits [63:52] clear. *)
Lemma user_address_low (src : Z) :
  u64 src -> is_kernel_address src = false -> src < 2 ^ 52.
Proof.
  unfold u64, is_kernel_address. intros Hsrc Hk.
  destruct (Z.eqb_spec (Z.land src 0xFFF0000000000000) 0) as [E|E];
    [|discriminate Hk].
  destruct (Z.lt_ge_cases src (2 ^ 52)) as [Hlt|Hge]; [exact Hlt|].
  exfalso.
  assert (Hhi : Z.land src 0xFFF0000000000000 = Z.shiftl (Z.shiftr src 52) 52).
  { change 0xFFF0000000000000 with (Z.shiftl (Z.ones 12) 52).
    apply Z.bits_inj'. intros i Hi.
    rewrite Z.land_spec.
    destruct (Z.ltb_spec i 52).
    - rewrite !Z.shiftl_spec_low by lia. apply Bool.andb_false_r.
    - rewrite !Z.shiftl_spec by lia. rewrite Z.shiftr_spec by lia.
      replace (i - 52 + 52) with i by lia.
      destruct (Z.ltb_spec (i - 52) 12).
      + rewrite Z.ones_spec_low by lia. apply Bool.andb_true_r.
      + rewrite Z.ones_spec_high by lia.
        rewrite Bool.andb_false_r.
        symmetry. apply Z.bits_above_log2; [lia|].
        assert (2 ^ 64 <= 2 ^ i) by (apply Z.pow_le_mono_r; lia).
        apply Z.log2_lt_pow2; lia. }
  rewrite Hhi in E.
  rewrite Z.shiftl_mul_pow2, Z.shiftr_div_pow2 in E by lia.
  assert (1 <= src / 2 ^ 52) by (apply Z.div_le_lower_bound; lia).
  lia.
Qed.

(** ** The walker *)

Section Walker.

Context {Guest : Type} `{B : Backend Guest}.
Variable pfn_bits : Z.

Lemma logged_nil (os : Os Guest) : logged [] os = os.
Proof. destruct os. unfold logged. cbn. rewrite app_nil_r. reflexivity. Qed.

Lemma logged_app (l1 l2 : list event) (os : Os Guest) :
  logged l2 (logged l1 os) = logged (l1 ++ l2) os.
Proof. unfold logged. cbn. rewrite app_assoc. reflexivity. Qed.

Lemma read_entry_logged (a : Z) (os : Os Guest) :
  bind (memory_read_physical a 8)
       (fun ok => match ok with
                  | None => ret None
                  | Some bs => ret (Some (MMPTE_of_bytes bs))
                  end) os
  = (entry_at (core_ os) a, logged (reads [a]) os).
Proof.
  unfold bind, memory_read_physical, entry_at, ret, logged, reads. cbn.
  destruct (read_physical (core_ os) a 8); reflexivity.
Qed.

(** The monadic walker is the path walk over the guest of its state: the
    result is the path's, and the state changes by the reads of the path. *)
Lemma virtual_to_physical_path (p : Z) (proc : option proc_t) (dtb : dtb_t)
      (os : Os Guest) :
  virtual_to_physical pfn_bits p proc dtb os
  = (fst (walk_path pfn_bits (core_ os) p dtb),
     logged (reads (snd (walk_path pfn_bits (core_ os) p dtb))) os).
Proof.
  unfold virtual_to_physical, walk_path.
  unfold read_pml4e, read_pdpe, read_pde, read_pte.
  cbv zeta.
  unfold bind at 1. rewrite read_entry_logged.
  fold (pml4e_ptr dtb p).
  destruct (entry_at (core_ os) (pml4e_ptr dtb p)) as [e1|]; [|reflexivity].
  destruct (Valid e1); cbn [negb]; [|reflexivity].
  unfold bind at 1. rewrite read_entry_logged. cbn [core_ logged].
  fold (next_ptr pfn_bits e1 (pdp (Build_virt_t (read_le64 (le_bytes 8 p))))).
  destruct (entry_at (core_ os) (next_ptr pfn_bits e1 _)) as [e2|];
    [|unfold ret; rewrite logged_app; reflexivity].
  destruct (Valid e2); cbn [negb];
    [|unfold ret; rewrite logged_app; reflexivity].
  destruct (LargePage e2); [unfold ret; rewrite logged_app; reflexivity|].
  unfold bind at 1. rewrite read_entry_logged. cbn [core_ logged].
  fold (next_ptr pfn_bits e2 (pd (Build_virt_t (read_le64 (le_bytes 8 p))))).
  destruct (entry_at (core_ os) (next_ptr pfn_bits e2 _)) as [e3|];
    [|unfold ret; rewrite !logged_app; reflexivity].
  destruct (Valid e3); cbn [negb];
    [|unfold ret; rewrite !logged_app; reflexivity].
  destruct (LargePage e3); [unfold ret; rewrite !logged_app; reflexivity|].
  unfold bind at 1. rewrite read_entry_logged. cbn [core_ logged].
  fold (next_ptr pfn_bits e3 (pt (Build_virt_t (read_le64 (le_bytes 8 p))))).
  destruct (entry_at (core_ os) (next_ptr pfn_bits e3 _)) as [e4|];
    [|unfold ret; rewrite !logged_app; reflexivity].
  destruct (Valid e4); cbn [negb]; unfold ret; rewrite !logged_app; reflexivity.
Qed.

Lemma walker_frame (p : Z) (proc : option proc_t) (dtb : dtb_t) (os : Os Guest) :
  exists l, snd (virtual_to_physical pfn_bits p proc dtb os) = logged (reads l) os.
Proof. rewrite virtual_to_physical_path. eexists. reflexivity. Qed.

Lemma walk_path_shape (g : Guest) (p : Z) (dtb : dtb_t) (r : ntphy_t) :
  fst (walk_path pfn_bits g p dtb) = Some r ->
  r = page_fault_required \/ exists q, r = Build_ntphy_t q true false.
Proof.
  unfold walk_path, physical_page. cbv zeta.
  repeat match goal with
         | |- context [match entry_at ?g ?a with _ => _ end] =>
           destruct (entry_at g a)
         | |- context [if negb (Valid ?e) then _ else _] =>
           destruct (Valid e); cbn [negb]
         | |- context [if LargePage ?e then _ else _] =>
           destruct (LargePage e)
         end;
    cbn [fst]; intros H; inversion H; subst; eauto.
Qed.

End Walker.

(** ** The injection policy *)

Section Policy.

Context {Guest : Type} `{B : Backend Guest}.

(** Every call either refuses, having at most read CR8 and CR3, or passes
    all six predicates and attempts the injection. *)
Lemma try_inject_page_fault_cases (proc : option proc_t) (dtb : dtb_t) (src : Z)
      (os : Os Guest) :
  (exists evs,
      try_inject_page_fault proc dtb src os = (false, logged evs os)
      /\ (evs = [] \/ evs = [EvRegisterRead cr8]
          \/ evs = [EvRegisterRead cr8; EvRegisterRead cr3]))
  \/
  (exists p v sp,
      proc = Some p
      /\ is_kernel_address src = false
      /\ to_int32 (register_read (core_ os) cr8) < irql_value dispatch
      /\ (register_read (core_ os) cr3 = val (kdtb p)
          \/ register_read (core_ os) cr3 = val (udtb p))
      /\ vm_area_find (core_ os) p src = Some v
      /\ vm_area_span (core_ os) p v = Some sp
      /\ wrap64 (src + PAGE_SIZE) <= wrap64 (addr sp + size sp)
      /\ let code :=
           if is_user_mode (register_read (core_ os) cs) then 4 else 0 in
         let ok := fst (inject_interrupt (core_ os) PAGE_FAULT code src) in
         let g := snd (inject_interrupt (core_ os) PAGE_FAULT code src) in
         try_inject_page_fault proc dtb src os
         = (ok, Build_Os (if ok then run_to_current g else g)
                         (num_page_faults_ os + 1)
                         (trace os ++ inject_events code src ok))).
Proof.
  remember (try_inject_page_fault proc dtb src os) as R eqn:HR.
  cbv [try_inject_page_fault bind read_irql registers_read ret
       os_vm_area_find os_vm_area_span incr_num_page_faults
       state_inject_interrupt state_run_to_current FAIL emit is_some] in HR.
  cbn [core_ num_page_faults_ trace negb andb] in HR.
  destruct (is_kernel_address src) eqn:Hk.
  { left. exists []. rewrite logged_nil. auto. }
  destruct proc as [p|].
  2:{ left. exists []. rewrite logged_nil. auto. }
  cbn [negb andb] in HR.
  destruct (Z.geb_spec (to_int32 (register_read (core_ os) cr8))
                       (irql_value dispatch)) as [Hq|Hq].
  { left. exists [EvRegisterRead cr8]. auto. }
  cbn [core_ num_page_faults_ trace] in HR.
  assert (Hcr3 : (negb (register_read (core_ os) cr3 =? val (kdtb p))
                  && negb (register_read (core_ os) cr3 =? val (udtb p)) = false
                  /\ (register_read (core_ os) cr3 = val (kdtb p)
                      \/ register_read (core_ os) cr3 = val (udtb p)))
                 \/ negb (register_read (core_ os) cr3 =? val (kdtb p))
                    && negb (register_read (core_ os) cr3 =? val (udtb p)) = true).
  { destruct (Z.eqb_spec (register_read (core_ os) cr3) (val (kdtb p)));
      destruct (Z.eqb_spec (register_read (core_ os) cr3) (val (udtb p)));
      cbn [negb andb]; auto. }
  destruct Hcr3 as [[Hc Hcr3]|Hc]; rewrite Hc in HR;
    cbn [core_ num_page_faults_ trace] in HR; rewrite <- app_assoc in HR;
    cbn [app] in HR.
  2:{ left. exists [EvRegisterRead cr8; EvRegisterRead cr3]. auto. }
  destruct (vm_area_find (core_ os) p src) as [v|] eqn:Hf;
    cbn [core_ num_page_faults_ trace] in HR.
  2:{ left. exists [EvRegisterRead cr8; EvRegisterRead cr3]. auto. }
  destruct (vm_area_span (core_ os) p v) as [sp|] eqn:Hs;
    cbn [core_ num_page_faults_ trace] in HR.
  2:{ left. exists [EvRegisterRead cr8; EvRegisterRead cr3]. auto. }
  destruct (Z.gtb_spec (wrap64 (src + PAGE_SIZE))
                       (wrap64 (addr sp + size sp))) as [Hg|Hg];
    cbn [core_ num_page_faults_ trace] in HR.
  { left. exists [EvRegisterRead cr8; EvRegisterRead cr3]. auto. }
  right. exists p, v, sp.
  repeat (split; [solve [auto | lia]|]).
  cbv zeta. unfold inject_events.
  change (Z.shiftl 1 2) with 4 in HR.
  destruct (inject_interrupt (core_ os) PAGE_FAULT
              (if is_user_mode (register_read (core_ os) cs) then 4 else 0)
              src) as [ok g].
  cbn [fst snd]. destruct ok; cbn [negb core_ num_page_faults_ trace] in HR;
    rewrite <- ?app_assoc in HR; exact HR.
Qed.

End Policy.

(** ** What the walker returns *)

Section WalkerResults.

Context {Guest : Type} `{B : Backend Guest}.
Variable pfn_bits : Z.

Local Notation "'virt_of' p" := (Build_virt_t (wrap64 p))
  (at level 10, p at level 9).

Ltac walk_to_path :=
  rewrite virtual_to_physical_path; unfold walk_path;
  rewrite read_le64_le_bytes; cbv zeta.

(** A Valid PDPT entry with LargePage: two reads, then the 1 GiB frame. *)
Lemma walker_1g (p : Z) (proc : option proc_t) (dtb : dtb_t) (os : Os Guest)
      (e1 e2 : MMPTE) :
  entry_at (core_ os) (pml4e_ptr dtb p) = Some e1 -> Valid e1 = true ->
  entry_at (core_ os) (next_ptr pfn_bits e1 (pdp (virt_of p))) = Some e2 ->
  Valid e2 = true -> LargePage e2 = true ->
  virtual_to_physical pfn_bits p proc dtb os
  = (Some (Build_ntphy_t
             (Z.lor (Z.land (value e2) 0xFFFFFC0000000) (Z.land p 0x3FFFFFFF))
             true false),
     logged (reads [pml4e_ptr dtb p; next_ptr pfn_bits e1 (pdp (virt_of p))]) os).
Proof.
  intros H1 V1 H2 V2 L2. walk_to_path.
  rewrite H1, V1. cbn [negb]. rewrite H2, V2, L2. cbn [negb fst snd].
  unfold physical_page.
  change (shl64 (mask 22) 30) with 0xFFFFFC0000000.
  change (mask 30) with 0x3FFFFFFF.
  rewrite large_page_sum; [reflexivity| | | |]; try reflexivity; lia.
Qed.

(** A Valid PD entry with LargePage: three reads, then the 2 MiB frame. *)
Lemma walker_2m (p : Z) (proc : option proc_t) (dtb : dtb_t) (os : Os Guest)
      (e1 e2 e3 : MMPTE) :
  entry_at (core_ os) (pml4e_ptr dtb p) = Some e1 -> Valid e1 = true ->
  entry_at (core_ os) (next_ptr pfn_bits e1 (pdp (virt_of p))) = Some e2 ->
  Valid e2 = true -> LargePage e2 = false ->
  entry_at (core_ os) (next_ptr pfn_bits e2 (pd (virt_of p))) = Some e3 ->
  Valid e3 = true -> LargePage e3 = true ->
  virtual_to_physical pfn_bits p proc dtb os
  = (Some (Build_ntphy_t
             (Z.lor (Z.land (value e3) 0xFFFFFFFE00000) (Z.land p 0x1FFFFF))
             true false),
     logged (reads [pml4e_ptr dtb p; next_ptr pfn_bits e1 (pdp (virt_of p));
                    next_ptr pfn_bits e2 (pd (virt_of p))]) os).
Proof.
  intros H1 V1 H2 V2 L2 H3 V3 L3. walk_to_path.
  rewrite H1, V1. cbn [negb]. rewrite H2, V2, L2. cbn [negb].
  rewrite H3, V3, L3. cbn [negb fst snd].
  unfold physical_page.
  change (shl64 (mask 31) 21) with 0xFFFFFFFE00000.
  change (mask 21) with 0x1FFFFF.
  rewrite large_page_sum; [reflexivity| | | |]; try reflexivity; lia.
Qed.

Lemma entry_at_u64 (g : Guest) (a : Z) (e : MMPTE) :
  entry_at g a = Some e -> u64 (value e).
Proof.
  unfold entry_at. destruct (read_physical g a 8); cbn; intros H; inversion H.
  apply read_le64_range.
Qed.

(** C3: when the four entries of the path (PML4E, PDPE, PDE, PTE) are read
    successfully and are Valid, and neither the PDPE nor the PDE has
    LargePage, the walker returns resolved-normal with the physical address
    [pte.PageFrameNumber * 4096 | (vaddr & 0xFFF)]. *)
Theorem C3_walk_4k_page (p : Z) (proc : option proc_t) (dtb : dtb_t)
        (os : Os Guest) (pml4e pdpe pde pte : MMPTE) :
  entry_at (core_ os) (pml4e_ptr dtb p) = Some pml4e -> Valid pml4e = true ->
  entry_at (core_ os) (next_ptr pfn_bits pml4e (pdp (virt_of p))) = Some pdpe ->
  Valid pdpe = true -> LargePage pdpe = false ->
  entry_at (core_ os) (next_ptr pfn_bits pdpe (pd (virt_of p))) = Some pde ->
  Valid pde = true -> LargePage pde = false ->
  entry_at (core_ os) (next_ptr pfn_bits pde (pt (virt_of p))) = Some pte ->
  Valid pte = true ->
  fst (virtual_to_physical pfn_bits p proc dtb os)
  = Some (Build_ntphy_t
            (Z.lor (PageFrameNumber pfn_bits pte * 4096) (Z.land p 0xFFF))
            true false).
Proof.
  intros H1 V1 H2 V2 L2 H3 V3 L3 H4 V4.
  rewrite virtual_to_physical_path. unfold walk_path. cbv zeta.
  rewrite offset_of_wrapped. rewrite read_le64_le_bytes.
  rewrite H1, V1. cbn [negb]. rewrite H2, V2, L2. cbn [negb].
  rewrite H3, V3, L3. cbn [negb]. rewrite H4, V4. cbn [negb fst].
  unfold physical_page. rewrite page_sum; [reflexivity|].
  apply PageFrameNumber_range. apply (entry_at_u64 _ _ _ H4).
Qed.

(** C4: a Valid PDPT-level entry with LargePage ends the walk after two
    reads with [(pdpe.raw & (mask(22)<<30)) | (vaddr & mask(30))]; a Valid
    PD-level entry with LargePage ends it after three reads, the PT level
    unread, with [(pde.raw & (mask(31)<<21)) | (vaddr & mask(21))]; mask(n)
    being the n-bit all-ones value. *)
Theorem C4_large_pages_end_the_walk (p : Z) (proc : option proc_t) (dtb : dtb_t)
        (os : Os Guest) (pml4e pdpe : MMPTE) :
  entry_at (core_ os) (pml4e_ptr dtb p) = Some pml4e -> Valid pml4e = true ->
  entry_at (core_ os) (next_ptr pfn_bits pml4e (pdp (virt_of p))) = Some pdpe ->
  Valid pdpe = true ->
  (LargePage pdpe = true ->
   virtual_to_physical pfn_bits p proc dtb os
   = (Some (Build_ntphy_t
              (Z.lor (Z.land (value pdpe) (Z.shiftl (Z.ones 22) 30))
                     (Z.land p (Z.ones 30)))
              true false),
      logged [EvReadPhysical (pml4e_ptr dtb p) 8;
              EvReadPhysical (next_ptr pfn_bits pml4e (pdp (virt_of p))) 8] os))
  /\
  (LargePage pdpe = false ->
   forall pde : MMPTE,
     entry_at (core_ os) (next_ptr pfn_bits pdpe (pd (virt_of p))) = Some pde ->
     Valid pde = true -> LargePage pde = true ->
     virtual_to_physical pfn_bits p proc dtb os
     = (Some (Build_ntphy_t
                (Z.lor (Z.land (value pde) (Z.shiftl (Z.ones 31) 21))
                       (Z.land p (Z.ones 21)))
                true false),
        logged [EvReadPhysical (pml4e_ptr dtb p) 8;
                EvReadPhysical (next_ptr pfn_bits pml4e (pdp (virt_of p))) 8;
                EvReadPhysical (next_ptr pfn_bits pdpe (pd (virt_of p))) 8] os)).
Proof.
  intros H1 V1 H2 V2. split.
  - intros L2. exact (walker_1g p proc dtb os pml4e pdpe H1 V1 H2 V2 L2).
  - intros L2 pde H3 V3 L3.
    exact (walker_2m p proc dtb os pml4e pdpe pde H1 V1 H2 V2 L2 H3 V3 L3).
Qed.

(** C2, as amended: a Valid PDPT-level entry with LargePage resolves to
    [(pdpe.raw & 0xFFFFFC0000000) | (vaddr & 0x3FFFFFFF)], and a Valid
    PD-level entry with LargePage to
    [(pde.raw & 0xFFFFFFFE00000) | (vaddr & 0x1FFFFF)], for every raw entry
    value: the frame masks reach up to bit 51. *)
Theorem C2_large_page_address (p : Z) (proc : option proc_t) (dtb : dtb_t)
        (os : Os Guest) (pml4e pdpe : MMPTE) :
  entry_at (core_ os) (pml4e_ptr dtb p) = Some pml4e -> Valid pml4e = true ->
  entry_at (core_ os) (next_ptr pfn_bits pml4e (pdp (virt_of p))) = Some pdpe ->
  Valid pdpe = true ->
  (LargePage pdpe = true ->
   fst (virtual_to_physical pfn_bits p proc dtb os)
   = Some (Build_ntphy_t
             (Z.lor (Z.land (value pdpe) 0xFFFFFC0000000) (Z.land p 0x3FFFFFFF))
             true false))
  /\
  (LargePage pdpe = false ->
   forall pde : MMPTE,
     entry_at (core_ os) (next_ptr pfn_bits pdpe (pd (virt_of p))) = Some pde ->
     Valid pde = true -> LargePage pde = true ->
     fst (virtual_to_physical pfn_bits p proc dtb os)
     = Some (Build_ntphy_t
               (Z.lor (Z.land (value pde) 0xFFFFFFFE00000) (Z.land p 0x1FFFFF))
               true false)).
Proof.
  intros H1 V1 H2 V2. split.
  - intros L2. rewrite (walker_1g p proc dtb os pml4e pdpe H1 V1 H2 V2 L2).
    reflexivity.
  - intros L2 pde H3 V3 L3.
    rewrite (walker_2m p proc dtb os pml4e pdpe pde H1 V1 H2 V2 L2 H3 V3 L3).
    reflexivity.
Qed.

End WalkerResults.

(** ** Where the walk stops, and what it depends on *)

Section WalkerPath.

Context {Guest : Type} `{B : Backend Guest}.
Variable pfn_bits : Z.

Ltac split_path H :=
  lazymatch type of H with
  | [] = ?pre ++ _ :: _ => destruct pre; discriminate H
  | _ :: _ = ?pre ++ _ :: _ =>
    destruct pre; cbn [app] in H;
    [ injection H as ? ?; subst
    | let Hh := fresh "Hh" in
      let Ht := fresh "Ht" in
      injection H as Hh Ht; subst; split_path Ht ]
  end.

(** On the path of a walk, an entry that is not Valid is the last one read,
    and the walk then asks for a fault. *)
Lemma walk_path_stops (g : Guest) (p : Z) (dtb : dtb_t)
      (pre post : list Z) (a : Z) (e : MMPTE) :
  snd (walk_path pfn_bits g p dtb) = pre ++ a :: post ->
  entry_at g a = Some e -> Valid e = false ->
  post = [] /\ fst (walk_path pfn_bits g p dtb) = Some page_fault_required.
Proof.
  unfold walk_path. cbv zeta.
  generalize (Build_virt_t (read_le64 (le_bytes 8 p))) as virt.
  generalize (pml4e_ptr dtb p) as a1. intros a1 virt.
  repeat match goal with
         | |- context [match entry_at ?g ?a with _ => _ end] =>
           let E := fresh "E" in destruct (entry_at g a) eqn:E
         | |- context [if negb (Valid ?e) then _ else _] =>
           let V := fresh "V" in destruct (Valid e) eqn:V; cbn [negb]
         | |- context [if LargePage ?e then _ else _] =>
           destruct (LargePage e)
         end;
    cbn [fst snd]; intros Hp He Hv;
    split_path Hp; solve [congruence | split; reflexivity].
Qed.

(** C5: if an entry read on the walk path has Valid=0, the walker returns
    fault-required and that read is the last event of the walk: no later
    level is read from physical memory.  The walk itself only reads. *)
Theorem C5_invalid_entry_ends_the_walk (p : Z) (proc : option proc_t)
        (dtb : dtb_t) (os : Os Guest) :
  exists path : list Z,
    snd (virtual_to_physical pfn_bits p proc dtb os) = logged (reads path) os
    /\ forall (pre post : list Z) (a : Z) (e : MMPTE),
        path = pre ++ a :: post ->
        entry_at (core_ os) a = Some e -> Valid e = false ->
        post = []
        /\ fst (virtual_to_physical pfn_bits p proc dtb os)
           = Some page_fault_required.
Proof.
  exists (snd (walk_path pfn_bits (core_ os) p dtb)).
  rewrite virtual_to_physical_path. cbn [fst snd]. split; [reflexivity|].
  intros pre post a e Hp He Hv.
  exact (walk_path_stops (core_ os) p dtb pre post a e Hp He Hv).
Qed.

Lemma walk_path_ext (g1 g2 : Guest) (p : Z) (dtb : dtb_t) :
  (forall a, read_physical g1 a 8 = read_physical g2 a 8) ->
  walk_path pfn_bits g1 p dtb = walk_path pfn_bits g2 p dtb.
Proof.
  intros H.
  assert (He : forall a, entry_at g1 a = entry_at g2 a).
  { intros a. unfold entry_at. rewrite H. reflexivity. }
  unfold walk_path. cbv zeta.
  repeat (rewrite He;
          match goal with
          | |- context [match entry_at g2 ?a with _ => _ end] =>
            destruct (entry_at g2 a); [|reflexivity]
          end;
          match goal with
          | |- context [if negb (Valid ?e) then _ else _] =>
            destruct (Valid e); cbn [negb]; [|reflexivity]
          end;
          try match goal with
          | |- context [if LargePage ?e then _ else _] =>
            destruct (LargePage e); [reflexivity|]
          end);
    reflexivity.
Qed.

(** C10: two walks of the same virtual address with the same DTB, over
    guests whose 8-byte physical reads answer alike, return the same result
    and read the same addresses, whatever the two process arguments are
    (null included). *)
Theorem C10_walker_ignores_proc (p : Z) (proc1 proc2 : option proc_t)
        (dtb : dtb_t) (os1 os2 : Os Guest) :
  (forall a, read_physical (core_ os1) a 8 = read_physical (core_ os2) a 8) ->
  fst (virtual_to_physical pfn_bits p proc1 dtb os1)
  = fst (virtual_to_physical pfn_bits p proc2 dtb os2)
  /\ exists path,
      snd (virtual_to_physical pfn_bits p proc1 dtb os1)
      = logged (reads path) os1
      /\ snd (virtual_to_physical pfn_bits p proc2 dtb os2)
         = logged (reads path) os2.
Proof.
  intros H. rewrite !virtual_to_physical_path. cbn [fst snd].
  rewrite (walk_path_ext (core_ os1) (core_ os2) p dtb H).
  split; [reflexivity|]. eexists. split; reflexivity.
Qed.

End WalkerPath.

(** ** Counting events *)

Lemma count_events_app (f : event -> bool) (l1 l2 : list event) :
  count_events f (l1 ++ l2) = count_events f l1 + count_events f l2.
Proof.
  unfold count_events. rewrite filter_app, length_app. lia.
Qed.

Lemma count_events_reads (f : event -> bool) (l : list Z) :
  (forall a, f (EvReadPhysical a 8) = false) -> count_events f (reads l) = 0.
Proof.
  intros H. unfold count_events, reads.
  induction l as [|a l IH]; cbn [map filter]; [reflexivity|].
  rewrite H. exact IH.
Qed.

Lemma count_events_nonneg (f : event -> bool) (l : list event) :
  0 <= count_events f l.
Proof. unfold count_events. lia. Qed.

Lemma count_events_cons (f : event -> bool) (e : event) (l : list event) :
  count_events f (e :: l) = (if f e then 1 else 0) + count_events f l.
Proof.
  unfold count_events. cbn [filter]. destruct (f e); cbn [List.length]; lia.
Qed.

Lemma count_zero_at (f : event -> bool) (pre post : list event) (y : event) :
  count_events f (pre ++ y :: post) = 0 -> f y = false.
Proof.
  rewrite count_events_app, count_events_cons. intros H.
  pose proof (count_events_nonneg f pre).
  pose proof (count_events_nonneg f post).
  destruct (f y); [lia|reflexivity].
Qed.

(** Where an event that [f] selects can sit in a list whose only such
    event is [x]. *)
Lemma split_at_only (f : event -> bool) (A B pre post : list event)
      (x y : event) :
  count_events f A = 0 -> count_events f B = 0 -> f y = true ->
  A ++ x :: B = pre ++ y :: post ->
  pre = A /\ y = x /\ post = B.
Proof.
  revert pre. induction A as [|a A IH]; intros pre HA HB Hy E.
  - destruct pre as [|z pre]; cbn [app] in E.
    + injection E as -> ->. auto.
    + injection E as _ E. subst B.
      apply count_zero_at in HB. congruence.
  - rewrite count_events_cons in HA.
    pose proof (count_events_nonneg f A).
    destruct pre as [|z pre]; cbn [app] in E.
    + injection E as -> _. rewrite Hy in HA. lia.
    + injection E as -> E.
      assert (HA' : count_events f A = 0) by (destruct (f z); lia).
      destruct (IH pre HA' HB Hy E) as (-> & -> & ->). auto.
Qed.

Lemma no_run_follows_inject (evs : list event) :
  count_events is_run_to_current evs = 0 -> run_follows_inject evs.
Proof.
  intros H pre tag post E. subst evs. apply count_zero_at in H.
  discriminate H.
Qed.

Lemma attempt_run_follows_inject (A B : list event) (code src : Z) :
  count_events is_run_to_current A = 0 ->
  count_events is_run_to_current B = 0 ->
  run_follows_inject (A ++ inject_events code src true ++ B).
Proof.
  intros HA HB pre tag post E.
  unfold inject_events in E.
  change (A ++ [EvRegisterRead cr8; EvRegisterRead cr3; EvRegisterRead cs;
                EvInjectInterrupt PAGE_FAULT code src;
                EvRunToCurrent "inject_pf"] ++ B)
    with (A ++ [EvRegisterRead cr8; EvRegisterRead cr3; EvRegisterRead cs;
                EvInjectInterrupt PAGE_FAULT code src]
            ++ EvRunToCurrent "inject_pf" :: B) in E.
  rewrite app_assoc in E.
  apply (split_at_only is_run_to_current) in E; auto.
  - destruct E as (-> & _ & _).
    exists (A ++ [EvRegisterRead cr8; EvRegisterRead cr3; EvRegisterRead cs]),
      PAGE_FAULT, code, src.
    rewrite <- app_assoc. reflexivity.
  - rewrite count_events_app, HA. reflexivity.
Qed.

(** ** The injection policy and the counter *)

Section PolicyResults.

Context {Guest : Type} `{B : Backend Guest}.

(** C6: in every call of try_inject_page_fault the counter grows by the
    number of inject_interrupt calls of that call, which is zero or one,
    whatever inject_interrupt answers; so it is incremented exactly once iff
    inject_interrupt is called, unchanged otherwise, and never decreases. *)
Theorem C6_counter_counts_injections (proc : option proc_t) (dtb : dtb_t)
        (src : Z) (os : Os Guest) :
  exists evs : list event,
    trace (snd (try_inject_page_fault proc dtb src os)) = trace os ++ evs
    /\ (count_events is_inject evs = 0 \/ count_events is_inject evs = 1)
    /\ num_page_faults_ (snd (try_inject_page_fault proc dtb src os))
       = num_page_faults_ os + count_events is_inject evs
    /\ (num_page_faults_ (snd (try_inject_page_fault proc dtb src os))
        = num_page_faults_ os + 1
        <-> exists code, In (EvInjectInterrupt PAGE_FAULT code src) evs)
    /\ (count_events is_inject evs = 1 ->
        exists code,
          fst (try_inject_page_fault proc dtb src os)
          = fst (inject_interrupt (core_ os) PAGE_FAULT code src))
    /\ num_page_faults_ os
       <= num_page_faults_ (snd (try_inject_page_fault proc dtb src os)).
Proof.
  destruct (try_inject_page_fault_cases proc dtb src os)
    as [(evs & -> & Hevs) | (p & v & sp & _ & _ & _ & _ & _ & _ & _ & Heq)].
  - exists evs. cbn [snd fst logged trace num_page_faults_].
    assert (Hc : count_events is_inject evs = 0).
    { destruct Hevs as [->|[->| ->]]; reflexivity. }
    rewrite Hc. repeat split; auto; try lia.
    intros [code Hin].
    destruct Hevs as [->|[->| ->]]; cbn in Hin;
      repeat (destruct Hin as [Hin|Hin]; [discriminate Hin|]);
      destruct Hin.
  - cbv zeta in Heq. rewrite Heq. cbn [snd fst trace num_page_faults_].
    set (code := if is_user_mode (register_read (core_ os) cs) then 4 else 0).
    exists (inject_events code src
              (fst (inject_interrupt (core_ os) PAGE_FAULT code src))).
    assert (Hc : forall ok, count_events is_inject (inject_events code src ok) = 1).
    { intros []; reflexivity. }
    rewrite Hc. repeat split; auto; try lia.
    + intros _. exists code. unfold inject_events. cbn. auto.
    + intros _. exists code. reflexivity.
Qed.

(** C7: for an address with one of the bits [63:52] set,
    try_inject_page_fault returns false at once, the state as it was: no
    register read, no injection, the counter unchanged; and an accessor whose
    walk of that address asked for a fault fails, in the state the walk
    left. *)
Theorem C7_kernel_address_refused (proc : option proc_t) (dtb : dtb_t)
        (src : Z) (os : Os Guest) :
  Z.land src 0xFFF0000000000000 <> 0 ->
  try_inject_page_fault proc dtb src os = (false, os)
  /\ forall (pfn_bits : Z) (data : list byte) (nt : ntphy_t),
      fst (virtual_to_physical pfn_bits src proc dtb os) = Some nt ->
      valid_page nt = false ->
      read_page pfn_bits src proc dtb os
      = (None, snd (virtual_to_physical pfn_bits src proc dtb os))
      /\ write_page pfn_bits src data proc dtb os
         = (false, snd (virtual_to_physical pfn_bits src proc dtb os))
      /\ Os_virtual_to_physical pfn_bits proc dtb src os
         = (None, snd (virtual_to_physical pfn_bits src proc dtb os)).
Proof.
  intros Hk.
  assert (Hka : is_kernel_address src = true).
  { unfold is_kernel_address. destruct (Z.eqb_spec (Z.land src 0xFFF0000000000000) 0);
      [contradiction|reflexivity]. }
  assert (Hr : forall o : Os Guest,
             try_inject_page_fault proc dtb src o = (false, o)).
  { intros o. unfold try_inject_page_fault. rewrite Hka. reflexivity. }
  split; [apply Hr|].
  intros pfn_bits data nt Hw Hv.
  assert (Hz : zero_page nt = false).
  { rewrite virtual_to_physical_path in Hw. cbn [fst] in Hw.
    destruct (walk_path_shape pfn_bits _ _ _ _ Hw) as [->|[q ->]]; reflexivity. }
  unfold read_page, write_page, Os_virtual_to_physical, bind.
  destruct (virtual_to_physical pfn_bits src proc dtb os) as [r os1].
  cbn [fst snd] in *. subst r. rewrite Hv, ?Hz, !Hr. cbn [negb].
  repeat split; reflexivity.
Qed.

(** C8: try_inject_page_fault refuses (false, no inject_interrupt call, the
    counter and the guest unchanged) whenever the VMA lookup fails, the span
    lookup fails, or [addr + 4096 > vma.addr + vma.size]; and it calls
    inject_interrupt only when [addr + 4096 <= vma.addr + vma.size]. *)
Theorem C8_whole_page_in_vma (proc : option proc_t) (dtb : dtb_t) (src : Z)
        (os : Os Guest) :
  u64 src ->
  (forall p v sp, vm_area_span (core_ os) p v = Some sp ->
                  u64 (addr sp) /\ u64 (size sp)) ->
  ((forall p, proc = Some p -> ~ page_in_vma (core_ os) p src) ->
   exists evs,
     try_inject_page_fault proc dtb src os = (false, logged evs os)
     /\ count_events is_inject evs = 0)
  /\
  (num_page_faults_ (snd (try_inject_page_fault proc dtb src os))
   <> num_page_faults_ os ->
   exists p, proc = Some p /\ page_in_vma (core_ os) p src)
  /\
  (forall evs code,
      trace (snd (try_inject_page_fault proc dtb src os)) = trace os ++ evs ->
      In (EvInjectInterrupt PAGE_FAULT code src) evs ->
      exists p, proc = Some p /\ page_in_vma (core_ os) p src).
Proof.
  intros Hsrc Hspan.
  destruct (try_inject_page_fault_cases proc dtb src os)
    as [(evs & Heq & Hevs) | (p & v & sp & -> & Hk & _ & _ & Hf & Hs & Hle & _)].
  - rewrite Heq. cbn [snd logged num_page_faults_ trace].
    split; [|split].
    + intros _. exists evs. split; [reflexivity|].
      destruct Hevs as [->|[->| ->]]; reflexivity.
    + intros Hn. contradiction Hn. reflexivity.
    + intros evs' code Ht Hin. apply app_inv_head in Ht. subst evs'.
      destruct Hevs as [->|[->| ->]]; cbn in Hin;
        repeat (destruct Hin as [Hin|Hin]; [discriminate Hin|]);
        destruct Hin.
  - assert (Hin : page_in_vma (core_ os) p src).
    { exists v, sp. repeat split; auto.
      destruct (Hspan p v sp Hs) as [Ha Hz]. unfold u64 in Ha, Hz, Hsrc.
      pose proof (user_address_low src Hsrc Hk) as Hlow.
      unfold PAGE_SIZE in Hle.
      rewrite (wrap64_small (src + 0x1000)) in Hle by (unfold u64; lia).
      pose proof (wrap64_le (addr sp + size sp) ltac:(lia)). lia. }
    split; [|split].
    + intros Hno. exfalso. exact (Hno p eq_refl Hin).
    + intros _. exists p. auto.
    + intros. exists p. auto.
Qed.

End PolicyResults.

(** ** The accessors *)

Section AccessorResults.

Context {Guest : Type} `{B : Backend Guest}.
Variable pfn_bits : Z.

Lemma inject_events_counts (code src : Z) (ok : bool) :
  count_events is_inject (inject_events code src ok) = 1
  /\ count_events is_run_to_current (inject_events code src ok)
     = (if ok then 1 else 0)
  /\ count_events is_memset (inject_events code src ok) = 0.
Proof. destruct ok; repeat split; reflexivity. Qed.

Lemma refusal_events_counts (evs : list event) :
  evs = [] \/ evs = [EvRegisterRead cr8]
  \/ evs = [EvRegisterRead cr8; EvRegisterRead cr3] ->
  count_events is_inject evs = 0
  /\ count_events is_run_to_current evs = 0
  /\ count_events is_memset evs = 0.
Proof. intros [->|[->| ->]]; repeat split; reflexivity. Qed.

(** What nt::Os::virtual_to_physical does after its first walk: nothing
    more when the walk failed or resolved; when the walk asked for a fault,
    the call of try_inject_page_fault in the state the walk left, and, when
    that returns true, the second walk in the state the policy left. *)
Lemma Os_virtual_to_physical_steps (proc : option proc_t) (dtb : dtb_t)
      (p : Z) (os : Os Guest) :
  let first := virtual_to_physical pfn_bits p proc dtb os in
  (fst first = None ->
   Os_virtual_to_physical pfn_bits proc dtb p os = (None, snd first))
  /\ (forall nt, fst first = Some nt -> valid_page nt = true ->
      Os_virtual_to_physical pfn_bits proc dtb p os = (Some (ptr nt), snd first))
  /\ (forall nt, fst first = Some nt -> valid_page nt = false ->
      let policy := try_inject_page_fault proc dtb p (snd first) in
      let second := virtual_to_physical pfn_bits p proc dtb (snd policy) in
      Os_virtual_to_physical pfn_bits proc dtb p os
      = if fst policy
        then (match fst second with
              | Some nt2 => if valid_page nt2 then Some (ptr nt2) else None
              | None => None
              end, snd second)
        else (None, snd policy)).
Proof.
  cbv zeta.
  assert (Hu : Os_virtual_to_physical pfn_bits proc dtb p os
               = (let (nt_phy, os1) := virtual_to_physical pfn_bits p proc dtb os in
                  match nt_phy with
                  | None => (None, os1)
                  | Some nt =>
                    if valid_page nt then (Some (ptr nt), os1) else
                    let (ok, os2) := try_inject_page_fault proc dtb p os1 in
                    if negb ok then (None, os2) else
                    let (nt_phy2, os3) :=
                      virtual_to_physical pfn_bits p proc dtb os2 in
                    match nt_phy2 with
                    | None => (None, os3)
                    | Some nt2 =>
                      if negb (valid_page nt2) then (None, os3)
                      else (Some (ptr nt2), os3)
                    end
                  end)).
  { unfold Os_virtual_to_physical, bind, ret.
    destruct (virtual_to_physical pfn_bits p proc dtb os) as [[nt|] os1];
      [|reflexivity].
    destruct (valid_page nt); [reflexivity|].
    destruct (try_inject_page_fault proc dtb p os1) as [[|] os2];
      cbn [negb]; [|reflexivity].
    destruct (virtual_to_physical pfn_bits p proc dtb os2) as [[nt2|] os3];
      [|reflexivity].
    destruct (valid_page nt2); reflexivity. }
  rewrite Hu. clear Hu.
  destruct (virtual_to_physical pfn_bits p proc dtb os) as [r os1].
  cbn [fst snd]. split; [|split].
  - intros ->. reflexivity.
  - intros nt -> Hv. rewrite Hv. reflexivity.
  - intros nt -> Hv. rewrite Hv.
    destruct (try_inject_page_fault proc dtb p os1) as [ok os2].
    cbn [fst snd]. destruct ok; cbn [negb]; [|reflexivity].
    destruct (virtual_to_physical pfn_bits p proc dtb os2) as [r2 os3].
    cbn [fst snd]. destruct r2 as [nt2|]; [|reflexivity].
    destruct (valid_page nt2); reflexivity.
Qed.

(** The events of a call of nt::Os::virtual_to_physical. *)
Lemma Os_virtual_to_physical_events (proc : option proc_t)
      (dtb : dtb_t) (p : Z) (os : Os Guest) :
  exists evs : list event,
    trace (snd (Os_virtual_to_physical pfn_bits proc dtb p os)) = trace os ++ evs
    /\ num_page_faults_ (snd (Os_virtual_to_physical pfn_bits proc dtb p os))
       = num_page_faults_ os + count_events is_inject evs
    /\ count_events is_run_to_current evs <= count_events is_inject evs <= 1
    /\ (count_events is_inject evs = 0 ->
        core_ (snd (Os_virtual_to_physical pfn_bits proc dtb p os)) = core_ os)
    /\ (fst (virtual_to_physical pfn_bits p proc dtb os) = None
        \/ (exists nt,
               fst (virtual_to_physical pfn_bits p proc dtb os) = Some nt
               /\ valid_page nt = true) ->
        count_events is_inject evs = 0)
    /\ run_follows_inject evs.
Proof.
  remember (Os_virtual_to_physical pfn_bits proc dtb p os) as R eqn:HR.
  remember (fst (virtual_to_physical pfn_bits p proc dtb os)) as first
    eqn:Hfirst.
  rewrite virtual_to_physical_path in Hfirst. cbn [fst] in Hfirst.
  unfold Os_virtual_to_physical in HR. unfold bind at 1 in HR.
  rewrite virtual_to_physical_path in HR. cbn [fst snd] in HR.
  set (wp := walk_path pfn_bits (core_ os) p dtb) in *.
  assert (Hr0 : forall f, (forall a, f (EvReadPhysical a 8) = false) ->
                          count_events f (reads (snd wp)) = 0).
  { intros f Hf. apply count_events_reads, Hf. }
  pose proof (Hr0 is_inject (fun _ => eq_refl)) as Hi0.
  pose proof (Hr0 is_run_to_current (fun _ => eq_refl)) as Hc0.
  destruct (fst wp) as [nt|] eqn:Hw.
  2:{ exists (reads (snd wp)). subst R. cbn. rewrite Hi0, Hc0.
      repeat split; auto; try lia. apply no_run_follows_inject, Hc0. }
  destruct (walk_path_shape pfn_bits _ _ _ _ Hw) as [->|[q ->]].
  2:{ exists (reads (snd wp)). subst R. cbn. rewrite Hi0, Hc0.
      repeat split; auto; try lia. apply no_run_follows_inject, Hc0. }
  assert (Hcases : first = None \/
                   (exists nt0, first = Some nt0 /\ valid_page nt0 = true) ->
                   False).
  { subst first. intros [Hn|(nt0 & Hn & Hv)]; [discriminate Hn|].
    inversion Hn. subst nt0. discriminate Hv. }
  cbn [valid_page page_fault_required] in HR. unfold bind at 1 in HR.
  set (os1 := logged (reads (snd wp)) os) in *.
  destruct (try_inject_page_fault_cases proc dtb p os1)
    as [(evs & Heq & Hevs) | (pr & v & sp & _ & _ & _ & _ & _ & _ & _ & Heq)].
  - rewrite Heq in HR. cbn [negb] in HR. subst R.
    destruct (refusal_events_counts evs Hevs) as (Hi & Hc & _).
    exists (reads (snd wp) ++ evs). cbn.
    rewrite !count_events_app, Hi0, Hc0, Hi, Hc, app_assoc.
    repeat split; auto; try lia.
    apply no_run_follows_inject. rewrite count_events_app, Hc0, Hc.
    reflexivity.
  - cbv zeta in Heq. rewrite Heq in HR. clear Heq.
    set (code := if is_user_mode (register_read (core_ os1) cs) then 4 else 0)
      in *.
    destruct (inject_interrupt (core_ os1) PAGE_FAULT code p) as [ok g].
    cbn [fst snd] in HR.
    destruct (inject_events_counts code p ok) as (Hi & Hc & _).
    destruct ok; cbn [negb] in HR.
    + unfold bind at 1 in HR. rewrite virtual_to_physical_path in HR.
      cbn [fst snd core_] in HR.
      set (wp2 := walk_path pfn_bits (run_to_current g) p dtb) in *.
      exists (reads (snd wp) ++ inject_events code p true ++ reads (snd wp2)).
      assert (Hs : snd R
                   = Build_Os (run_to_current g) (num_page_faults_ os + 1)
                       (trace os ++ reads (snd wp)
                              ++ inject_events code p true
                              ++ reads (snd wp2))).
      { subst R.
        destruct (fst wp2) as [nt2|]; [destruct (negb (valid_page nt2))|];
          unfold logged, inject_events; cbn; rewrite <- ?app_assoc;
          reflexivity. }
      rewrite Hs. cbn [trace num_page_faults_ core_].
      rewrite !count_events_app, Hi0, Hc0, Hi, Hc.
      rewrite !count_events_reads by reflexivity.
      repeat split; auto; try lia.
      * intros H. destruct (Hcases H).
      * apply attempt_run_follows_inject; [exact Hc0|].
        apply count_events_reads. reflexivity.
    + subst R. exists (reads (snd wp) ++ inject_events code p false).
      cbn [snd ret trace num_page_faults_ core_ os1 logged].
      rewrite !count_events_app, Hi0, Hc0, Hi, Hc, app_assoc.
      repeat split; auto; try lia.
      * intros H. destruct (Hcases H).
      * apply no_run_follows_inject. rewrite count_events_app, Hc0, Hc.
        reflexivity.
Qed.

(** C1, as amended: the page-table walk only reads physical memory: it
    leaves the guest and the counter as they were and injects nothing.
    nt::Os::virtual_to_physical keeps to that whenever its first walk fails
    or resolves: it returns in the state the walk left.  When the first walk
    is fault-required it calls try_inject_page_fault in that state, fails in
    the state the policy left when the policy returns false, and walks again
    in that state when it returns true.  Over the whole call the counter
    grows by the number of injections, at most one, and run-to-current is
    invoked at most once and only directly after an injection. *)
Theorem C1_walk_reads_only_accessor_may_inject (proc : option proc_t)
        (dtb : dtb_t) (p : Z) (os : Os Guest) :
  (exists path,
      snd (virtual_to_physical pfn_bits p proc dtb os) = logged (reads path) os)
  /\
  (exists evs : list event,
    trace (snd (Os_virtual_to_physical pfn_bits proc dtb p os)) = trace os ++ evs
    /\ num_page_faults_ (snd (Os_virtual_to_physical pfn_bits proc dtb p os))
       = num_page_faults_ os + count_events is_inject evs
    /\ count_events is_run_to_current evs <= count_events is_inject evs <= 1
    /\ (count_events is_inject evs = 0 ->
        core_ (snd (Os_virtual_to_physical pfn_bits proc dtb p os)) = core_ os)
    /\ (fst (virtual_to_physical pfn_bits p proc dtb os) = None
        \/ (exists nt,
               fst (virtual_to_physical pfn_bits p proc dtb os) = Some nt
               /\ valid_page nt = true) ->
        count_events is_inject evs = 0)
    /\ (forall pre tag post,
           evs = pre ++ EvRunToCurrent tag :: post ->
           exists pre' vector code cr2,
             pre = pre' ++ [EvInjectInterrupt vector code cr2]))
  /\
  (fst (virtual_to_physical pfn_bits p proc dtb os) = None ->
   Os_virtual_to_physical pfn_bits proc dtb p os
   = (None, snd (virtual_to_physical pfn_bits p proc dtb os)))
  /\
  (forall nt,
      fst (virtual_to_physical pfn_bits p proc dtb os) = Some nt ->
      valid_page nt = true ->
      Os_virtual_to_physical pfn_bits proc dtb p os
      = (Some (ptr nt), snd (virtual_to_physical pfn_bits p proc dtb os)))
  /\
  (forall nt,
      fst (virtual_to_physical pfn_bits p proc dtb os) = Some nt ->
      valid_page nt = false ->
      let policy :=
        try_inject_page_fault proc dtb p
          (snd (virtual_to_physical pfn_bits p proc dtb os)) in
      let second := virtual_to_physical pfn_bits p proc dtb (snd policy) in
      Os_virtual_to_physical pfn_bits proc dtb p os
      = if fst policy
        then (match fst second with
              | Some nt2 => if valid_page nt2 then Some (ptr nt2) else None
              | None => None
              end, snd second)
        else (None, snd policy)).
Proof.
  split; [apply walker_frame|].
  split; [exact (Os_virtual_to_physical_events proc dtb p os)|].
  exact (Os_virtual_to_physical_steps proc dtb p os).
Qed.

(** C9: a result of the walker is either resolved-normal
    [{ptr, true, false}] or fault-required [{0, false, false}]: never both
    flags, never zero_page; and read_page never takes its zero-fill branch
    (no memset among the events of a call). *)
Theorem C9_walker_never_answers_zero_page (p : Z) (proc : option proc_t)
        (dtb : dtb_t) (os : Os Guest) :
  (forall r : ntphy_t,
      fst (virtual_to_physical pfn_bits p proc dtb os) = Some r ->
      ((exists q, r = Build_ntphy_t q true false)
       \/ r = Build_ntphy_t 0 false false)
      /\ zero_page r = false
      /\ valid_page r && zero_page r = false)
  /\
  exists evs : list event,
    trace (snd (read_page pfn_bits p proc dtb os)) = trace os ++ evs
    /\ count_events is_memset evs = 0.
Proof.
  split.
  - intros r Hr. rewrite virtual_to_physical_path in Hr. cbn [fst] in Hr.
    destruct (walk_path_shape pfn_bits _ _ _ _ Hr) as [->|[q ->]].
    + repeat split; auto.
    + repeat split; eauto.
  - remember (read_page pfn_bits p proc dtb os) as R eqn:HR.
    unfold read_page in HR. unfold bind at 1 in HR.
    rewrite virtual_to_physical_path in HR. cbn [fst snd] in HR.
    set (wp := walk_path pfn_bits (core_ os) p dtb) in *.
    pose proof (count_events_reads is_memset (snd wp) (fun _ => eq_refl)) as Hm0.
    destruct (fst wp) as [nt|] eqn:Hw.
    2:{ exists (reads (snd wp)). subst R. cbn. auto. }
    destruct (walk_path_shape pfn_bits _ _ _ _ Hw) as [->|[q ->]].
    2:{ cbn [zero_page valid_page ptr] in HR. subst R.
        exists (reads (snd wp) ++ [EvReadPhysical q PAGE_SIZE]).
        cbn. rewrite app_assoc, count_events_app, Hm0. auto. }
    cbn [zero_page valid_page page_fault_required] in HR.
    unfold bind at 1 in HR.
    set (os1 := logged (reads (snd wp)) os) in *.
    destruct (try_inject_page_fault_cases proc dtb p os1)
      as [(evs & Heq & Hevs) | (pr & v & sp & _ & _ & _ & _ & _ & _ & _ & Heq)].
    + rewrite Heq in HR. cbn [negb] in HR. subst R.
      destruct (refusal_events_counts evs Hevs) as (_ & _ & Hm).
      exists (reads (snd wp) ++ evs). cbn.
      rewrite count_events_app, Hm0, Hm, app_assoc. auto.
    + cbv zeta in Heq. rewrite Heq in HR. clear Heq.
      set (code := if is_user_mode (register_read (core_ os1) cs) then 4 else 0)
        in *.
      destruct (inject_interrupt (core_ os1) PAGE_FAULT code p) as [ok g].
      cbn [fst snd] in HR.
      destruct (inject_events_counts code p ok) as (_ & _ & Hm).
      destruct ok; cbn [negb] in HR; subst R.
      * exists (reads (snd wp) ++ inject_events code p true
                      ++ [EvReadVirtual (val dtb) p PAGE_SIZE]).
        cbn [snd memory_read_virtual_with_dtb trace core_ num_page_faults_
                 os1 logged].
        rewrite !count_events_app, Hm0, Hm, <- !app_assoc. auto.
      * exists (reads (snd wp) ++ inject_events code p false).
        cbn [snd ret trace os1 logged].
        rewrite !count_events_app, Hm0, Hm, app_assoc. auto.
Qed.

End AccessorResults.

(** ** The scripted scenarios *)

(** S3: the PTE is not Valid and the policy accepts: vector 14 with error
    code 4 and CR2 = 0x10800, the counter at 1, and the second walk finds
    the frame that the handler mapped. *)
Example scenario_fault_in :
  Os_virtual_to_physical 36 (Some proc_1) dtb_1000 0x10800
                         (mock_os guest_paged_out)
  = (Some 0x5800,
     Build_Os (run_to_current guest_paged_out) 1
              ([EvReadPhysical 0x1000 8; EvReadPhysical 0x2000 8;
                EvReadPhysical 0x3000 8; EvReadPhysical 0x4080 8]
               ++ inject_events 4 0x10800 true
               ++ [EvReadPhysical 0x1000 8; EvReadPhysical 0x2000 8;
                   EvReadPhysical 0x3000 8; EvReadPhysical 0x4080 8])).
Proof. vm_compute. reflexivity. Qed.

(** S5: at dispatch level the policy refuses after reading CR8. *)
Example scenario_dispatch :
  try_inject_page_fault (Some proc_1) dtb_1000 0x10800 (mock_os guest_dispatch)
  = (false, Build_Os guest_dispatch 0 [EvRegisterRead cr8]).
Proof. vm_compute. reflexivity. Qed.

(** S6: the injection primitive fails: the counter is at 1 all the same, the
    failure is logged and run-to-current is not invoked. *)
Example scenario_injection_fails :
  try_inject_page_fault (Some proc_1) dtb_1000 0x10800 (mock_os guest_no_inject)
  = (false, Build_Os guest_no_inject 1 (inject_events 4 0x10800 false)).
Proof. vm_compute. reflexivity. Qed.

(** Without a process the policy refuses before any register read. *)
Example scenario_no_proc :
  try_inject_page_fault None dtb_1000 0x10800 (mock_os guest_paged_out)
  = (false, mock_os guest_paged_out).
Proof. reflexivity. Qed.

(** C1, as stated, fails: on [guest_paged_out] the public
    virtual_to_physical of 0x10800 injects one page fault, invokes
    run-to-current, bumps the counter from 0 to 1 and leaves another guest. *)
Lemma C1_virtual_to_physical_injects :
  let r := Os_virtual_to_physical 36 (Some proc_1) dtb_1000 0x10800
                                  (mock_os guest_paged_out) in
  fst r = Some 0x5800
  /\ num_page_faults_ (mock_os guest_paged_out) = 0
  /\ num_page_faults_ (snd r) = 1
  /\ In (EvInjectInterrupt PAGE_FAULT 4 0x10800) (trace (snd r))
  /\ In (EvRunToCurrent "inject_pf") (trace (snd r))
  /\ words (core_ (snd r)) <> words guest_paged_out.
Proof.
  vm_compute. repeat split; auto 10. discriminate.
Qed.

(** C2, as stated, fails: with bit 46 of the entry set, the walker keeps it
    in the frame address, and the masks 0x3FFFC0000000 and 0x3FFFFFE00000
    drop it, at the PDPT level and at the PD level. *)
Lemma C2_masks_stop_at_bit_45 :
  (entry_at guest_1g (pml4e_ptr dtb_1000 0x12345) = Some (Build_MMPTE 0x2001)
   /\ entry_at guest_1g 0x2000 = Some (Build_MMPTE 0x400000000081)
   /\ Valid (Build_MMPTE 0x400000000081) = true
   /\ LargePage (Build_MMPTE 0x400000000081) = true
   /\ fst (virtual_to_physical 36 0x12345 None dtb_1000 (mock_os guest_1g))
      = Some (Build_ntphy_t 0x400000012345 true false)
    /\ fst (virtual_to_physical 36 0x12345 None dtb_1000 (mock_os guest_1g))
      <> Some (Build_ntphy_t
                 (Z.lor (Z.land 0x400000000081 0x3FFFC0000000)
                        (Z.land 0x12345 0x3FFFFFFF))
                 true false))
  /\
  (entry_at guest_2m 0x3000 = Some (Build_MMPTE 0x4000000000E7)
   /\ Valid (Build_MMPTE 0x4000000000E7) = true
   /\ LargePage (Build_MMPTE 0x4000000000E7) = true
   /\ fst (virtual_to_physical 36 0x12345 None dtb_1000 (mock_os guest_2m))
      = Some (Build_ntphy_t 0x400000012345 true false)
   /\ fst (virtual_to_physical 36 0x12345 None dtb_1000 (mock_os guest_2m))
      <> Some (Build_ntphy_t
                 (Z.lor (Z.land 0x4000000000E7 0x3FFFFFE00000)
                        (Z.land 0x12345 0x1FFFFF))
                 true false)).
Proof. vm_compute. repeat split; try reflexivity; discriminate. Qed.

(** *** Instances of the theorems *)

Ltac by_evaluation := vm_compute; reflexivity.

(** On [guest_paged_out] the first walk of 0x10800 asks for a fault, the
    policy injects and returns true, and the second walk, in the state the
    policy left, resolves to frame 5. *)
Lemma C1_walk_reads_only_accessor_may_inject_witness :
  fst (virtual_to_physical 36 0x10800 (Some proc_1) dtb_1000
         (mock_os guest_paged_out))
  = Some page_fault_required
  /\ Os_virtual_to_physical 36 (Some proc_1) dtb_1000 0x10800
       (mock_os guest_paged_out)
     = (Some 0x5800,
        snd (virtual_to_physical 36 0x10800 (Some proc_1) dtb_1000
               (snd (try_inject_page_fault (Some proc_1) dtb_1000 0x10800
                       (snd (virtual_to_physical 36 0x10800 (Some proc_1)
                               dtb_1000 (mock_os guest_paged_out))))))).
Proof.
  assert (Hf : fst (virtual_to_physical 36 0x10800 (Some proc_1) dtb_1000
                      (mock_os guest_paged_out))
               = Some page_fault_required) by by_evaluation.
  split; [exact Hf|].
  refine (eq_trans
            (proj2 (proj2 (proj2 (proj2
               (C1_walk_reads_only_accessor_may_inject 36 (Some proc_1)
                  dtb_1000 0x10800 (mock_os guest_paged_out)))))
               page_fault_required Hf eq_refl) _).
  by_evaluation.
Defined.

(** The large pages of [guest_1g] and [guest_2m]. *)
Lemma C2_large_page_address_witness :
  fst (virtual_to_physical 36 0x12345 None dtb_1000 (mock_os guest_1g))
  = Some (Build_ntphy_t 0x400000012345 true false)
  /\ fst (virtual_to_physical 36 0x12345 None dtb_1000 (mock_os guest_2m))
     = Some (Build_ntphy_t 0x400000012345 true false).
Proof.
  split.
  - refine (proj1 (C2_large_page_address 36 0x12345 None dtb_1000
                     (mock_os guest_1g) (Build_MMPTE 0x2001)
                     (Build_MMPTE 0x400000000081) _ _ _ _) _);
      by_evaluation.
  - refine (proj2 (C2_large_page_address 36 0x12345 None dtb_1000
                     (mock_os guest_2m) (Build_MMPTE 0x2001)
                     (Build_MMPTE 0x3001) _ _ _ _)
                  _ (Build_MMPTE 0x4000000000E7) _ _ _);
      by_evaluation.
Defined.

(** The 4 KiB page of [guest_4k]. *)
Lemma C3_walk_4k_page_witness :
  fst (virtual_to_physical 36 0x123 (Some proc_1) dtb_1000 (mock_os guest_4k))
  = Some (Build_ntphy_t 0x5123 true false).
Proof.
  refine (C3_walk_4k_page 36 0x123 (Some proc_1) dtb_1000 (mock_os guest_4k)
            (Build_MMPTE 0x2001) (Build_MMPTE 0x3001) (Build_MMPTE 0x4001)
            (Build_MMPTE 0x5001) _ _ _ _ _ _ _ _ _ _);
    by_evaluation.
Defined.

(** Two reads for the 1 GiB page, three for the 2 MiB page. *)
Lemma C4_large_pages_end_the_walk_witness :
  virtual_to_physical 36 0x12345 None dtb_1000 (mock_os guest_1g)
  = (Some (Build_ntphy_t 0x400000012345 true false),
     Build_Os guest_1g 0 [EvReadPhysical 0x1000 8; EvReadPhysical 0x2000 8])
  /\ virtual_to_physical 36 0x12345 None dtb_1000 (mock_os guest_2m)
     = (Some (Build_ntphy_t 0x400000012345 true false),
        Build_Os guest_2m 0 [EvReadPhysical 0x1000 8; EvReadPhysical 0x2000 8;
                             EvReadPhysical 0x3000 8]).
Proof.
  split.
  - refine (proj1 (C4_large_pages_end_the_walk 36 0x12345 None dtb_1000
                     (mock_os guest_1g) (Build_MMPTE 0x2001)
                     (Build_MMPTE 0x400000000081) _ _ _ _) _);
      by_evaluation.
  - refine (proj2 (C4_large_pages_end_the_walk 36 0x12345 None dtb_1000
                     (mock_os guest_2m) (Build_MMPTE 0x2001)
                     (Build_MMPTE 0x3001) _ _ _ _)
                  _ (Build_MMPTE 0x4000000000E7) _ _ _);
      by_evaluation.
Defined.

(** A kernel address whose PTE is not Valid: nothing but the walk happens. *)
Lemma C7_kernel_address_refused_witness :
  Z.land 0xFFFF800000001000 0xFFF0000000000000 <> 0
  /\ try_inject_page_fault (Some proc_1) dtb_1000 0xFFFF800000001000
                           (mock_os guest_kernel)
     = (false, mock_os guest_kernel)
  /\ Os_virtual_to_physical 36 (Some proc_1) dtb_1000 0xFFFF800000001000
                            (mock_os guest_kernel)
     = (None,
        Build_Os guest_kernel 0
                 [EvReadPhysical 0x1800 8; EvReadPhysical 0x2000 8;
                  EvReadPhysical 0x3000 8; EvReadPhysical 0x4008 8]).
Proof.
  assert (H : Z.land 0xFFFF800000001000 0xFFF0000000000000 <> 0)
    by (vm_compute; discriminate).
  split; [exact H|].
  split.
  - exact (proj1 (C7_kernel_address_refused (Some proc_1) dtb_1000
                    0xFFFF800000001000 (mock_os guest_kernel) H)).
  - refine (proj2 (proj2
              (proj2 (C7_kernel_address_refused (Some proc_1) dtb_1000
                        0xFFFF800000001000 (mock_os guest_kernel) H)
                     36 [] page_fault_required _ _)));
      by_evaluation.
Defined.

(** The page of 0x10800 lies in the VMA of [guest_paged_out], where the
    counter moves, and not in the VMA of [guest_short_vma], where the call
    refuses. *)
Lemma C8_whole_page_in_vma_witness :
  u64 0x10800
  /\ (exists p, Some proc_1 = Some p
                /\ page_in_vma guest_paged_out p 0x10800)
  /\ (exists evs,
         try_inject_page_fault (Some proc_1) dtb_1000 0x10800
                               (mock_os guest_short_vma)
         = (false, logged evs (mock_os guest_short_vma))
         /\ count_events is_inject evs = 0).
Proof.
  assert (Hs : u64 0x10800) by (unfold u64; lia).
  assert (Hv : forall g : Mock,
             (exists a z, the_vma g = Some (Build_span_t a z)
                          /\ u64 a /\ u64 z) ->
             forall p v sp,
               vm_area_span (core_ (mock_os g)) p v = Some sp ->
               u64 (addr sp) /\ u64 (size sp)).
  { intros g (a & z & Hg & Ha & Hz) p v sp E. cbn in E. rewrite Hg in E.
    injection E as <-. auto. }
  split; [exact Hs|]. split.
  - refine (proj1 (proj2 (C8_whole_page_in_vma (Some proc_1) dtb_1000 0x10800
                            (mock_os guest_paged_out) Hs (Hv _ _))) _).
    + exists 0x10000, 0x10000. unfold u64. repeat split; lia.
    + vm_compute. discriminate.
  - refine (proj1 (C8_whole_page_in_vma (Some proc_1) dtb_1000 0x10800
                     (mock_os guest_short_vma) Hs (Hv _ _)) _).
    + exists 0x10000, 0x1000. unfold u64. repeat split; lia.
    + intros p _ (v & sp & _ & Hsp & Hle). cbn in Hsp.
      injection Hsp as <-. cbn in Hle. lia.
Defined.

(** The same memory under two guests and two process arguments. *)
Lemma C10_walker_ignores_proc_witness :
  fst (virtual_to_physical 36 0x123 (Some proc_2) dtb_1000 (mock_os guest_4k))
  = fst (virtual_to_physical 36 0x123 None dtb_1000 (mock_os guest_4k')).
Proof.
  refine (proj1 (C10_walker_ignores_proc 36 0x123 (Some proc_2) None dtb_1000
                   (mock_os guest_4k) (mock_os guest_4k') _)).
  intros a. reflexivity.
Defined.

(** * Further properties of nt_memory.cpp *)

(** ** [mask] and [is_kernel_address] *)

(** X1: for a shift the language defines, [mask(bits)] is [2^bits - 1]. *)
Theorem X1_mask_value (bits : Z) :
  0 <= bits < 64 -> mask bits = 2 ^ bits - 1.
Proof.
  intros H. rewrite mask_ones by lia. rewrite Z.ones_equiv. lia.
Qed.

Lemma X1_mask_value_witness : mask 40 = 2 ^ 40 - 1.
Proof. apply (X1_mask_value 40). lia. Defined.

(** X2: on 64-bit values, [is_kernel_address] holds exactly from 2^52 on:
    every canonical upper-half address is a kernel address, and so is every
    non-canonical address with one of the bits [63:52] set. *)
Theorem X2_is_kernel_address_threshold (ptr : Z) :
  u64 ptr -> (is_kernel_address ptr = true <-> 2 ^ 52 <= ptr).
Proof.
  intros Hu. split.
  - intros Hk. destruct (Z.lt_ge_cases ptr (2 ^ 52)) as [Hlt|Hge]; [|exact Hge].
    exfalso.
    assert (Hz : Z.land ptr 0xFFF0000000000000 = 0).
    { change 0xFFF0000000000000 with (Z.shiftl (Z.ones 12) 52).
      apply Z.bits_inj'. intros i Hi. rewrite Z.land_spec, Z.bits_0.
      destruct (Z.ltb_spec i 52).
      - rewrite Z.shiftl_spec_low by lia. apply Bool.andb_false_r.
      - rewrite (Z.bits_above_log2 ptr i); [reflexivity|unfold u64 in Hu; lia|].
        destruct (Z.eq_dec ptr 0) as [->|Hn]; [cbn; lia|].
        assert (2 ^ 52 <= 2 ^ i) by (apply Z.pow_le_mono_r; lia).
        apply Z.log2_lt_pow2; unfold u64 in Hu; lia. }
    unfold is_kernel_address in Hk. rewrite Hz in Hk. discriminate Hk.
  - intros Hge. destruct (is_kernel_address ptr) eqn:Hk; [reflexivity|].
    pose proof (user_address_low ptr Hu Hk). lia.
Qed.

Lemma X2_is_kernel_address_threshold_witness :
  is_kernel_address 0xFFFF800000001000 = true
  /\ 2 ^ 52 <= 0x0010000000000000.
Proof.
  split.
  - apply (X2_is_kernel_address_threshold 0xFFFF800000001000);
      unfold u64; lia.
  - apply (X2_is_kernel_address_threshold 0x0010000000000000);
      [unfold u64; lia|reflexivity].
Defined.

(** ** More on the walker *)

Section WalkerMore.

Context {Guest : Type} `{B : Backend Guest}.
Variable pfn_bits : Z.

Local Notation "'virt_of' p" := (Build_virt_t (read_le64 (le_bytes 8 p)))
  (at level 10, p at level 9).

Ltac walk_cases :=
  repeat match goal with
         | |- context [if negb (Valid ?e) then _ else _] =>
           let V := fresh "V" in destruct (Valid e) eqn:V; cbn [negb]
         | |- context [if LargePage ?e then _ else _] =>
           let L := fresh "L" in destruct (LargePage e) eqn:L
         | |- context [match entry_at ?g ?a with _ => _ end] =>
           let E := fresh "E" in destruct (entry_at g a) eqn:E
         end.

Ltac split_list H :=
  lazymatch type of H with
  | [] = ?pre ++ _ :: _ => destruct pre; discriminate H
  | _ :: _ = ?pre ++ _ :: _ =>
    destruct pre; cbn [app] in H;
    [ injection H as ? ?; subst
    | let Hh := fresh "Hh" in
      let Ht := fresh "Ht" in
      injection H as Hh Ht; subst; split_list Ht ]
  end.

Lemma walk_path_read_failure (g : Guest) (p : Z) (dtb : dtb_t) :
  (forall pre post a,
      snd (walk_path pfn_bits g p dtb) = pre ++ a :: post ->
      entry_at g a = None ->
      post = [] /\ fst (walk_path pfn_bits g p dtb) = None)
  /\ (fst (walk_path pfn_bits g p dtb) = None ->
      exists pre a,
        snd (walk_path pfn_bits g p dtb) = pre ++ [a] /\ entry_at g a = None).
Proof.
  unfold walk_path. cbv zeta.
  generalize (virt_of p) as virt.
  generalize (pml4e_ptr dtb p) as a1. intros a1 virt.
  walk_cases; cbn [fst snd]; (split; [intros pre post a Hp He|intros Hn]);
    try discriminate Hn;
    try (split_list Hp; solve [congruence | split; reflexivity]).
  - exists [a1; next_ptr pfn_bits m (pdp virt); next_ptr pfn_bits m0 (pd virt)].
    eexists. split; [reflexivity|assumption].
  - exists [a1; next_ptr pfn_bits m (pdp virt)].
    eexists. split; [reflexivity|assumption].
  - exists [a1]. eexists. split; [reflexivity|assumption].
  - exists []. eexists. split; [reflexivity|assumption].
Qed.

(** X3: a failed 8-byte read ends the walk: the walker returns the empty
    optional and reads nothing after it; and the walker returns the empty
    optional only when the last read of the walk failed. *)
Theorem X3_read_failure_ends_the_walk (p : Z) (proc : option proc_t)
        (dtb : dtb_t) (os : Os Guest) :
  exists path : list Z,
    snd (virtual_to_physical pfn_bits p proc dtb os) = logged (reads path) os
    /\ (forall pre post a,
           path = pre ++ a :: post ->
           read_physical (core_ os) a 8 = None ->
           post = [] /\ fst (virtual_to_physical pfn_bits p proc dtb os) = None)
    /\ (fst (virtual_to_physical pfn_bits p proc dtb os) = None ->
        exists pre a,
          path = pre ++ [a] /\ read_physical (core_ os) a 8 = None).
Proof.
  exists (snd (walk_path pfn_bits (core_ os) p dtb)).
  rewrite virtual_to_physical_path. cbn [fst snd].
  destruct (walk_path_read_failure (core_ os) p dtb) as [H1 H2].
  split; [reflexivity|]. split.
  - intros pre post a Hp Hr. apply (H1 pre post a Hp).
    unfold entry_at. rewrite Hr. reflexivity.
  - intros Hn. destruct (H2 Hn) as (pre & a & Hp & He).
    exists pre, a. split; [exact Hp|].
    unfold entry_at in He. destruct (read_physical (core_ os) a 8);
      [discriminate He|reflexivity].
Qed.

Lemma table_entry_aligned (base index : Z) :
  wrap64 (wrap64 (base * PAGE_SIZE) + index * 8) mod 8 = 0.
Proof.
  unfold wrap64, PAGE_SIZE.
  rewrite Z.mod_mod_divide by (exists (2 ^ 61); reflexivity).
  rewrite Z.add_mod by lia.
  rewrite Z.mod_mod_divide by (exists (2 ^ 61); reflexivity).
  replace (base * 4096) with (base * 512 * 8) by lia.
  rewrite !Z.mod_mul by lia. reflexivity.
Qed.

Lemma pml4e_ptr_aligned (dtb : dtb_t) (p : Z) : pml4e_ptr dtb p mod 8 = 0.
Proof.
  unfold pml4e_ptr, wrap64.
  rewrite Z.mod_mod_divide by (exists (2 ^ 61); reflexivity).
  rewrite Z.add_mod, Z.mod_mul by lia.
  change (shl64 (mask 40) 12) with (Z.shiftl (Z.ones 40) 12).
  assert (Hl : Z.land (val dtb) (Z.shiftl (Z.ones 40) 12) mod 8 = 0).
  { change 8 with (2 ^ 3). rewrite <- Z.land_ones by lia.
    rewrite <- Z.land_assoc. apply Z.land_0_r. }
  rewrite Hl. reflexivity.
Qed.

(** X4: a walk issues at least one and at most four physical reads, and
    every address it reads is 8-byte aligned. *)
Theorem X4_walk_reads_aligned_entries (p : Z) (proc : option proc_t)
        (dtb : dtb_t) (os : Os Guest) :
  exists path : list Z,
    snd (virtual_to_physical pfn_bits p proc dtb os) = logged (reads path) os
    /\ (1 <= List.length path <= 4)%nat
    /\ Forall (fun a => a mod 8 = 0) path.
Proof.
  exists (snd (walk_path pfn_bits (core_ os) p dtb)).
  rewrite virtual_to_physical_path. cbn [snd].
  split; [reflexivity|].
  unfold walk_path. cbv zeta.
  pose proof (pml4e_ptr_aligned dtb p) as Ha1.
  walk_cases; cbn [snd List.length]; (split; [lia|]);
    repeat (constructor; [first [exact Ha1 | apply table_entry_aligned]|]);
    constructor.
Qed.

Lemma low_bits_of_frame (hi lo_part : Z) :
  Z.land hi 0xFFF = 0 ->
  Z.land (Z.lor hi lo_part) 0xFFF = Z.land lo_part 0xFFF.
Proof.
  intros H. rewrite Z.land_lor_distr_l, H. apply Z.lor_0_l.
Qed.

Lemma frame_4k_low_bits (pfn : Z) : Z.land (pfn * 4096) 0xFFF = 0.
Proof.
  change 4096 with (2 ^ 12). rewrite <- Z.shiftl_mul_pow2 by lia.
  change 0xFFF with (Z.ones 12).
  apply Z.bits_inj'. intros i Hi. rewrite Z.land_spec, Z.bits_0.
  destruct (Z.ltb_spec i 12).
  - rewrite Z.shiftl_spec_low by lia. reflexivity.
  - rewrite Z.ones_spec_high by lia. apply Bool.andb_false_r.
Qed.

(** The three forms of a resolved address, by the level that resolved it. *)
Lemma walk_path_resolved (g : Guest) (p : Z) (dtb : dtb_t) (r : ntphy_t) :
  fst (walk_path pfn_bits g p dtb) = Some r -> valid_page r = true ->
  exists raw : Z,
    ptr r = Z.lor (Z.land raw 0xFFFFFC0000000) (Z.land p 0x3FFFFFFF)
    \/ ptr r = Z.lor (Z.land raw 0xFFFFFFFE00000) (Z.land p 0x1FFFFF)
    \/ (0 <= raw < 2 ^ 52 /\ ptr r = Z.lor (raw * 4096) (Z.land p 0xFFF)).
Proof.
  unfold walk_path. cbv zeta. rewrite offset_of_wrapped.
  walk_cases; cbn [fst]; intros Hr Hv; inversion Hr; subst r;
    try discriminate Hv; unfold physical_page; cbn [ptr];
    lazymatch goal with
    | E : entry_at _ _ = Some ?e
      |- context [wrap64 (PageFrameNumber pfn_bits ?e * PAGE_SIZE)] =>
      exists (PageFrameNumber pfn_bits e); right; right;
      pose proof (PageFrameNumber_range pfn_bits e (entry_at_u64 _ _ _ E));
      split; [assumption|apply page_sum; assumption]
    | |- context [Z.land (value ?e) (shl64 (mask 31) 21)] =>
      exists (value e); right; left;
      change (shl64 (mask 31) 21) with 0xFFFFFFFE00000;
      change (mask 21) with 0x1FFFFF;
      apply large_page_sum; try reflexivity; lia
    | |- context [Z.land (value ?e) (shl64 (mask 22) 30)] =>
      exists (value e); left;
      change (shl64 (mask 22) 30) with 0xFFFFFC0000000;
      change (mask 30) with 0x3FFFFFFF;
      apply large_page_sum; try reflexivity; lia
    end.
Qed.

(** A resolved address is a 64-bit value with the page offset of the
    virtual address. *)
Lemma resolved_address_offset (p : Z) (proc : option proc_t)
      (dtb : dtb_t) (os : Os Guest) (r : ntphy_t) :
  fst (virtual_to_physical pfn_bits p proc dtb os) = Some r ->
  valid_page r = true ->
  u64 (ptr r) /\ Z.land (ptr r) 0xFFF = Z.land p 0xFFF.
Proof.
  rewrite virtual_to_physical_path. cbn [fst]. intros Hr Hv.
  destruct (walk_path_resolved _ _ _ _ Hr Hv) as [raw [H|[H|[Hraw H]]]];
    rewrite H; split.
  - unfold u64. split.
    + apply Z.lor_nonneg. split; apply Z.land_nonneg; right; lia.
    + pose proof (land_bound_r raw 0xFFFFFC0000000 52 ltac:(lia) ltac:(lia)).
      pose proof (land_bound_r p 0x3FFFFFFF 52 ltac:(lia) ltac:(lia)).
      rewrite <- (Z.mod_small (Z.land raw _) (2 ^ 52)) by assumption.
      rewrite <- (Z.mod_small (Z.land p _) (2 ^ 52)) by assumption.
      rewrite <- !Z.land_ones, <- Z.land_lor_distr_l by lia.
      pose proof (land_bound_r
                    (Z.lor (Z.land raw 0xFFFFFC0000000) (Z.land p 0x3FFFFFFF))
                    (Z.ones 52) 52 ltac:(lia) ltac:(cbn; lia)).
      lia.
  - rewrite low_bits_of_frame.
    + rewrite <- Z.land_assoc. reflexivity.
    + rewrite <- Z.land_assoc. apply Z.land_0_r.
  - unfold u64. split.
    + apply Z.lor_nonneg. split; apply Z.land_nonneg; right; lia.
    + pose proof (land_bound_r raw 0xFFFFFFFE00000 52 ltac:(lia) ltac:(lia)).
      pose proof (land_bound_r p 0x1FFFFF 52 ltac:(lia) ltac:(lia)).
      rewrite <- (Z.mod_small (Z.land raw _) (2 ^ 52)) by assumption.
      rewrite <- (Z.mod_small (Z.land p _) (2 ^ 52)) by assumption.
      rewrite <- !Z.land_ones, <- Z.land_lor_distr_l by lia.
      pose proof (land_bound_r
                    (Z.lor (Z.land raw 0xFFFFFFFE00000) (Z.land p 0x1FFFFF))
                    (Z.ones 52) 52 ltac:(lia) ltac:(cbn; lia)).
      lia.
  - rewrite low_bits_of_frame.
    + rewrite <- Z.land_assoc. reflexivity.
    + rewrite <- Z.land_assoc. apply Z.land_0_r.
  - unfold u64.
    rewrite <- add_disjoint_lor.
    + pose proof (land_bound_r p 0xFFF 12 ltac:(lia) ltac:(lia)). lia.
    + rewrite (Z.land_comm p), Z.land_assoc, frame_4k_low_bits.
      apply Z.land_0_l.
  - rewrite low_bits_of_frame.
    + rewrite <- Z.land_assoc. reflexivity.
    + apply frame_4k_low_bits.
Qed.

(** X5: a resolved address is a 64-bit value whose page offset is the one
    of the virtual address: translation never changes the low 12 bits,
    whatever the page size. *)
Theorem X5_translation_keeps_page_offset (p : Z) (proc : option proc_t)
        (dtb : dtb_t) (os : Os Guest) (r : ntphy_t) :
  fst (virtual_to_physical pfn_bits p proc dtb os) = Some r ->
  valid_page r = true ->
  u64 (ptr r) /\ Z.land (ptr r) 0xFFF = Z.land p 0xFFF.
Proof.
  intros Hr Hv. exact (resolved_address_offset p proc dtb os r Hr Hv).
Qed.

(** The walk depends on the virtual address through its four table indices
    and its three offsets, and on the DTB through the PML4 entry address. *)
Lemma walk_path_congr (g : Guest) (p p' : Z) (dtb dtb' : dtb_t) :
  pml4e_ptr dtb p = pml4e_ptr dtb' p' ->
  pdp (virt_of p) = pdp (virt_of p') ->
  pd (virt_of p) = pd (virt_of p') ->
  pt (virt_of p) = pt (virt_of p') ->
  offset (virt_of p) = offset (virt_of p') ->
  Z.land p (mask 30) = Z.land p' (mask 30) ->
  Z.land p (mask 21) = Z.land p' (mask 21) ->
  walk_path pfn_bits g p dtb = walk_path pfn_bits g p' dtb'.
Proof.
  intros H1 H2 H3 H4 H5 H6 H7. unfold walk_path. cbv zeta.
  rewrite H1, H2, H3, H4, H5, H6, H7. reflexivity.
Qed.

Lemma bitfield_low_48 (p lo width : Z) :
  0 <= lo -> 0 <= width -> lo + width <= 48 ->
  bitfield (read_le64 (le_bytes 8 p)) lo width
  = bitfield (p mod 2 ^ 48) lo width.
Proof.
  intros Hlo Hw Hs. rewrite read_le64_le_bytes. unfold bitfield, wrap64.
  apply Z.bits_inj'. intros i Hi.
  rewrite !Z.land_spec, !Z.shiftr_spec by lia.
  destruct (Z.ltb_spec i width).
  - rewrite !Z.mod_pow2_bits_low by lia. reflexivity.
  - rewrite Z.testbit_ones_nonneg by lia.
    destruct (Z.ltb_spec i width); [lia|].
    rewrite !Bool.andb_false_r. reflexivity.
Qed.

Lemma land_low_48 (p n : Z) :
  0 <= n <= 48 -> Z.land p (Z.ones n) = Z.land (p mod 2 ^ 48) (Z.ones n).
Proof.
  intros Hn. rewrite <- (Z.land_ones p 48) by lia.
  rewrite <- Z.land_assoc. f_equal.
  apply Z.bits_inj'. intros i Hi.
  rewrite Z.land_spec, !Z.testbit_ones_nonneg by lia.
  destruct (Z.ltb_spec i n); destruct (Z.ltb_spec i 48); try reflexivity; lia.
Qed.

Lemma indices_low_48 (p p' : Z) :
  p mod 2 ^ 48 = p' mod 2 ^ 48 ->
  pml4 (virt_of p) = pml4 (virt_of p')
  /\ pdp (virt_of p) = pdp (virt_of p')
  /\ pd (virt_of p) = pd (virt_of p')
  /\ pt (virt_of p) = pt (virt_of p')
  /\ offset (virt_of p) = offset (virt_of p')
  /\ Z.land p (mask 30) = Z.land p' (mask 30)
  /\ Z.land p (mask 21) = Z.land p' (mask 21).
Proof.
  intros H. unfold pml4, pdp, pd, pt, offset. cbn [virt_value].
  rewrite !(bitfield_low_48 p), !(bitfield_low_48 p') by lia.
  change (mask 30) with (Z.ones 30). change (mask 21) with (Z.ones 21).
  rewrite (land_low_48 p 30), (land_low_48 p' 30) by lia.
  rewrite (land_low_48 p 21), (land_low_48 p' 21) by lia.
  rewrite H. repeat split; reflexivity.
Qed.

(** X6: the walker ignores the bits [63:48] of the virtual address: two
    addresses that agree on their low 48 bits read the same entries and get
    the same result.  Canonicality is not checked. *)
Theorem X6_walker_ignores_upper_bits (p p' : Z) (proc : option proc_t)
        (dtb : dtb_t) (os : Os Guest) :
  p mod 2 ^ 48 = p' mod 2 ^ 48 ->
  virtual_to_physical pfn_bits p proc dtb os
  = virtual_to_physical pfn_bits p' proc dtb os.
Proof.
  intros H. rewrite !virtual_to_physical_path.
  destruct (indices_low_48 p p' H) as (H1 & H2 & H3 & H4 & H5 & H6 & H7).
  rewrite (walk_path_congr (core_ os) p p' dtb dtb); auto.
  unfold pml4e_ptr. rewrite H1. reflexivity.
Qed.

(** X7: the walker uses the bits [51:12] of the DTB only: the low 12 bits
    and the bits [63:52] of the DTB do not change the walk. *)
Theorem X7_walker_masks_the_dtb (p : Z) (proc : option proc_t)
        (dtb dtb' : dtb_t) (os : Os Guest) :
  Z.land (val dtb) 0xFFFFFFFFFF000 = Z.land (val dtb') 0xFFFFFFFFFF000 ->
  virtual_to_physical pfn_bits p proc dtb os
  = virtual_to_physical pfn_bits p proc dtb' os.
Proof.
  intros H. rewrite !virtual_to_physical_path.
  rewrite (walk_path_congr (core_ os) p p dtb dtb'); auto.
  unfold pml4e_ptr. change (shl64 (mask 40) 12) with 0xFFFFFFFFFF000.
  rewrite H. reflexivity.
Qed.

Lemma bitfield_of_page (p lo width : Z) :
  12 <= lo -> 0 <= width -> lo + width <= 64 ->
  bitfield (read_le64 (le_bytes 8 p)) lo width
  = bitfield (Z.shiftr p 12) (lo - 12) width.
Proof.
  intros Hlo Hw Hs. rewrite read_le64_le_bytes. unfold bitfield, wrap64.
  apply Z.bits_inj'. intros i Hi.
  rewrite !Z.land_spec, !Z.shiftr_spec by lia.
  destruct (Z.ltb_spec i width).
  - rewrite Z.mod_pow2_bits_low by lia.
    replace (i + (lo - 12) + 12) with (i + lo) by lia. reflexivity.
  - rewrite Z.testbit_ones_nonneg by lia.
    destruct (Z.ltb_spec i width); [lia|].
    rewrite !Bool.andb_false_r. reflexivity.
Qed.

Lemma shiftr_large_frame (raw p hi lo : Z) :
  0 <= hi < 2 ^ 64 -> 0 <= lo -> Z.land hi lo = 0 -> Z.lor hi lo < 2 ^ 64 ->
  Z.shiftr (wrap64 (Z.land raw hi + Z.land p lo)) 12
  = Z.lor (Z.land (Z.shiftr raw 12) (Z.shiftr hi 12))
          (Z.land (Z.shiftr p 12) (Z.shiftr lo 12)).
Proof.
  intros. rewrite large_page_sum by assumption.
  rewrite Z.shiftr_lor, !Z.shiftr_land. reflexivity.
Qed.

Lemma walk_path_same_page (g : Guest) (p p' : Z) (dtb : dtb_t) :
  Z.shiftr p 12 = Z.shiftr p' 12 ->
  snd (walk_path pfn_bits g p dtb) = snd (walk_path pfn_bits g p' dtb)
  /\ option_map frame_of (fst (walk_path pfn_bits g p dtb))
     = option_map frame_of (fst (walk_path pfn_bits g p' dtb)).
Proof.
  intros H.
  assert (Hi : pml4 (virt_of p') = pml4 (virt_of p)
               /\ pdp (virt_of p') = pdp (virt_of p)
               /\ pd (virt_of p') = pd (virt_of p)
               /\ pt (virt_of p') = pt (virt_of p)).
  { unfold pml4, pdp, pd, pt. cbn [virt_value].
    rewrite !(bitfield_of_page p), !(bitfield_of_page p') by lia.
    rewrite H. repeat split; reflexivity. }
  destruct Hi as (H1 & H2 & H3 & H4).
  unfold walk_path, pml4e_ptr. cbv zeta.
  rewrite H1, H2, H3, H4, !offset_of_wrapped.
  walk_cases; cbn [fst snd option_map]; (split; [reflexivity|]);
    try reflexivity; unfold frame_of, physical_page; cbn [ptr valid_page];
    do 2 f_equal.
  - change (shl64 (mask 22) 30) with 0xFFFFFC0000000.
    change (mask 30) with 0x3FFFFFFF.
    rewrite !shiftr_large_frame by (try reflexivity; lia).
    rewrite H. reflexivity.
  - change (shl64 (mask 31) 21) with 0xFFFFFFFE00000.
    change (mask 21) with 0x1FFFFF.
    rewrite !shiftr_large_frame by (try reflexivity; lia).
    rewrite H. reflexivity.
  - match goal with
    | E : entry_at _ _ = Some ?e |- context [PageFrameNumber pfn_bits ?e] =>
      pose proof (PageFrameNumber_range pfn_bits e (entry_at_u64 _ _ _ E))
    end.
    rewrite !page_sum by assumption.
    rewrite !Z.shiftr_lor, !Z.shiftr_land.
    change (Z.shiftr 0xFFF 12) with 0. rewrite !Z.land_0_r. reflexivity.
Qed.

(** X8: two virtual addresses of the same 4 KiB page are walked alike: the
    same entries are read, both walks fail, ask for a fault or resolve
    together, and resolved addresses lie in the same physical frame. *)
Theorem X8_same_page_same_frame (p p' : Z) (proc : option proc_t)
        (dtb : dtb_t) (os : Os Guest) :
  Z.shiftr p 12 = Z.shiftr p' 12 ->
  snd (virtual_to_physical pfn_bits p proc dtb os)
  = snd (virtual_to_physical pfn_bits p' proc dtb os)
  /\ option_map frame_of (fst (virtual_to_physical pfn_bits p proc dtb os))
     = option_map frame_of (fst (virtual_to_physical pfn_bits p' proc dtb os)).
Proof.
  intros H. rewrite !virtual_to_physical_path. cbn [fst snd].
  destruct (walk_path_same_page (core_ os) p p' dtb H) as [Hs Hf].
  rewrite Hs. split; [reflexivity|exact Hf].
Qed.

End WalkerMore.

(** ** More on the injection policy *)

Section PolicyMore.

Context {Guest : Type} `{B : Backend Guest}.

(** X9: the [dtb] argument of try_inject_page_fault is dead: the branch
    that compares CR3 with it is behind the refusal of a null process. *)
Theorem X9_policy_ignores_dtb (proc : option proc_t) (dtb dtb' : dtb_t)
        (src : Z) (os : Os Guest) :
  try_inject_page_fault proc dtb src os = try_inject_page_fault proc dtb' src os.
Proof.
  unfold try_inject_page_fault.
  destruct (is_kernel_address src); [reflexivity|].
  destruct proc as [p|]; [|reflexivity].
  cbn [is_some negb andb]. reflexivity.
Qed.

(** The outcome of a call whose six predicates hold. *)
Lemma try_inject_page_fault_accepts (p : proc_t) (dtb : dtb_t) (src : Z)
      (os : Os Guest) (v : vma_t) (sp : span_t) :
  is_kernel_address src = false ->
  to_int32 (register_read (core_ os) cr8) < irql_value dispatch ->
  register_read (core_ os) cr3 = val (kdtb p)
  \/ register_read (core_ os) cr3 = val (udtb p) ->
  vm_area_find (core_ os) p src = Some v ->
  vm_area_span (core_ os) p v = Some sp ->
  wrap64 (src + PAGE_SIZE) <= wrap64 (addr sp + size sp) ->
  let code := if is_user_mode (register_read (core_ os) cs) then 4 else 0 in
  let ok := fst (inject_interrupt (core_ os) PAGE_FAULT code src) in
  let g := snd (inject_interrupt (core_ os) PAGE_FAULT code src) in
  try_inject_page_fault (Some p) dtb src os
  = (ok, Build_Os (if ok then run_to_current g else g)
                  (num_page_faults_ os + 1)
                  (trace os ++ inject_events code src ok)).
Proof.
  intros Hk Hq Hc Hf Hs Hle.
  destruct (try_inject_page_fault_cases (Some p) dtb src os)
    as [(evs & Heq & Hevs) | (p' & v' & sp' & Hp & _ & _ & _ & Hf' & Hs' & _ & Heq)].
  2:{ exact Heq. }
  exfalso. revert Heq.
  cbv [try_inject_page_fault bind read_irql registers_read ret
       os_vm_area_find os_vm_area_span incr_num_page_faults
       state_inject_interrupt state_run_to_current FAIL emit is_some].
  rewrite Hk. cbn [core_ num_page_faults_ trace negb andb].
  destruct (Z.geb_spec (to_int32 (register_read (core_ os) cr8))
                       (irql_value dispatch)) as [Hq'|_]; [lia|].
  cbn [core_ num_page_faults_ trace].
  assert (Hm : negb (register_read (core_ os) cr3 =? val (kdtb p))
               && negb (register_read (core_ os) cr3 =? val (udtb p)) = false).
  { destruct Hc as [Hc|Hc]; rewrite Hc, Z.eqb_refl; cbn [negb andb];
      [reflexivity|apply Bool.andb_false_r]. }
  rewrite Hm. cbn [core_ num_page_faults_ trace]. rewrite Hf.
  cbn [core_ num_page_faults_ trace]. rewrite Hs.
  destruct (Z.gtb_spec (wrap64 (src + PAGE_SIZE))
                       (wrap64 (addr sp + size sp))) as [Hg|_]; [lia|].
  cbn [core_ num_page_faults_ trace].
  destruct (inject_interrupt (core_ os) PAGE_FAULT
              (if is_user_mode (register_read (core_ os) cs)
               then Z.shiftl 1 2 else 0) src) as [ok g].
  intros Heq.
  assert (Hn : num_page_faults_ os + 1 = num_page_faults_ os).
  { destruct ok; cbn [negb core_ num_page_faults_ trace] in Heq;
      apply (f_equal (fun r => num_page_faults_ (snd r))) in Heq;
      exact Heq. }
  lia.
Qed.

(** X10: try_inject_page_fault calls inject_interrupt if and only if its
    six predicates hold: the address is not a kernel address, a process is
    given, the IRQL read from CR8 is below dispatch, CR3 is the kdtb or the
    udtb of the process, the VMA lookups succeed and the page fits, sums
    taken modulo 2^64. *)
Theorem X10_injection_iff_policy (proc : option proc_t) (dtb : dtb_t) (src : Z)
        (os : Os Guest) :
  exists evs : list event,
    trace (snd (try_inject_page_fault proc dtb src os)) = trace os ++ evs
    /\ (count_events is_inject evs = 1
        <-> is_kernel_address src = false
            /\ exists p v sp,
                proc = Some p
                /\ to_int32 (register_read (core_ os) cr8) < 2
                /\ (register_read (core_ os) cr3 = val (kdtb p)
                    \/ register_read (core_ os) cr3 = val (udtb p))
                /\ vm_area_find (core_ os) p src = Some v
                /\ vm_area_span (core_ os) p v = Some sp
                /\ (src + 4096) mod 2 ^ 64 <= (addr sp + size sp) mod 2 ^ 64).
Proof.
  destruct (try_inject_page_fault_cases proc dtb src os)
    as [(evs & Heq & Hevs) | (p & v & sp & Hp & Hk & Hq & Hc & Hf & Hs & Hle & Heq)].
  - exists evs. rewrite Heq. cbn [snd logged trace]. split; [reflexivity|].
    split.
    + intros Hc. exfalso.
      destruct Hevs as [->|[->| ->]]; discriminate Hc.
    + intros (Hk & p & v & sp & -> & Hq & Hc & Hf & Hs & Hle). exfalso.
      pose proof (try_inject_page_fault_accepts p dtb src os v sp
                    Hk Hq Hc Hf Hs Hle) as Ha.
      cbv zeta in Ha. rewrite Heq in Ha.
      apply (f_equal (fun r => num_page_faults_ (snd r))) in Ha.
      cbn in Ha. lia.
  - cbv zeta in Heq. rewrite Heq. cbn [snd trace].
    eexists. split; [reflexivity|]. split.
    + intros _. split; [exact Hk|]. exists p, v, sp. auto 10.
    + intros _.
      destruct (fst (inject_interrupt _ _ _ _)); reflexivity.
Qed.

(** X11: at dispatch level or above the policy refuses after reading CR8
    alone: CR3 and CS are not read, the VMA oracle is not consulted, the
    counter does not move. *)
Theorem X11_dispatch_level_refused (p : proc_t) (dtb : dtb_t) (src : Z)
        (os : Os Guest) :
  is_kernel_address src = false ->
  2 <= register_read (core_ os) cr8 < 2 ^ 31 ->
  try_inject_page_fault (Some p) dtb src os
  = (false, logged [EvRegisterRead cr8] os).
Proof.
  intros Hk Hq.
  cbv [try_inject_page_fault bind read_irql registers_read ret].
  rewrite Hk. cbn [core_].
  assert (Hi : to_int32 (register_read (core_ os) cr8)
               = register_read (core_ os) cr8).
  { unfold to_int32. rewrite Z.mod_small by lia. lia. }
  rewrite Hi.
  destruct (Z.geb_spec (register_read (core_ os) cr8) (irql_value dispatch))
    as [_|Hlt]; [reflexivity|cbn in Hlt; lia].
Qed.

(** X12: when CR3 is neither the kdtb nor the udtb of the process, the
    policy refuses after reading CR8 and CR3: the guest is running another
    address space. *)
Theorem X12_cr3_mismatch_refused (p : proc_t) (dtb : dtb_t) (src : Z)
        (os : Os Guest) :
  is_kernel_address src = false ->
  to_int32 (register_read (core_ os) cr8) < 2 ->
  register_read (core_ os) cr3 <> val (kdtb p) ->
  register_read (core_ os) cr3 <> val (udtb p) ->
  try_inject_page_fault (Some p) dtb src os
  = (false, logged [EvRegisterRead cr8; EvRegisterRead cr3] os).
Proof.
  intros Hk Hq Hc1 Hc2.
  cbv [try_inject_page_fault bind read_irql registers_read ret is_some].
  rewrite Hk. cbn [core_ num_page_faults_ trace].
  destruct (Z.geb_spec (to_int32 (register_read (core_ os) cr8))
                       (irql_value dispatch)) as [Hge|_];
    [cbn in Hge; lia|].
  cbn [core_ num_page_faults_ trace negb andb].
  destruct (Z.eqb_spec (register_read (core_ os) cr3) (val (kdtb p)));
    [contradiction|].
  destruct (Z.eqb_spec (register_read (core_ os) cr3) (val (udtb p)));
    [contradiction|].
  cbn [negb andb]. unfold logged. rewrite <- app_assoc. reflexivity.
Qed.

(** X13: every interrupt that try_inject_page_fault injects is vector 14
    with the faulting address [src] as CR2 and the error code 4 when CS is a
    user-mode selector, 0 otherwise; CR8, CR3 and CS have been read before
    it, in that order. *)
Theorem X13_injected_fault_parameters (proc : option proc_t) (dtb : dtb_t)
        (src : Z) (os : Os Guest) (evs : list event) (vector code cr2 : Z) :
  trace (snd (try_inject_page_fault proc dtb src os)) = trace os ++ evs ->
  In (EvInjectInterrupt vector code cr2) evs ->
  vector = 14 /\ cr2 = src
  /\ code = (if is_user_mode (register_read (core_ os) cs) then 4 else 0)
  /\ exists rest,
      evs = [EvRegisterRead cr8; EvRegisterRead cr3; EvRegisterRead cs;
             EvInjectInterrupt vector code cr2] ++ rest.
Proof.
  intros Ht Hin.
  destruct (try_inject_page_fault_cases proc dtb src os)
    as [(evs' & Heq & Hevs) | (p & v & sp & _ & _ & _ & _ & _ & _ & _ & Heq)].
  - rewrite Heq in Ht. cbn [snd logged trace] in Ht.
    apply app_inv_head in Ht. subst evs'. exfalso.
    destruct Hevs as [->|[->| ->]]; cbn in Hin;
      repeat (destruct Hin as [Hin|Hin]; [discriminate Hin|]); destruct Hin.
  - cbv zeta in Heq. rewrite Heq in Ht. cbn [snd trace] in Ht.
    apply app_inv_head in Ht. subst evs. unfold inject_events in *.
    cbn [In] in Hin.
    destruct Hin as [Hin|[Hin|[Hin|[Hin|[Hin|[]]]]]]; try discriminate Hin.
    + injection Hin as <- <- <-. repeat split; auto.
      eexists. reflexivity.
    + destruct (fst (inject_interrupt _ _ _ _)); discriminate Hin.
Qed.

(** X14: try_inject_page_fault returns what inject_interrupt answered.  It
    returns true exactly when run-to-current has been invoked, once, on the
    guest the injection left; when the injection fails the failure is
    logged, run-to-current is not invoked and the guest is the one the
    primitive left. *)
Theorem X14_run_to_current_iff_injected (proc : option proc_t) (dtb : dtb_t)
        (src : Z) (os : Os Guest) :
  exists evs : list event,
    trace (snd (try_inject_page_fault proc dtb src os)) = trace os ++ evs
    /\ (fst (try_inject_page_fault proc dtb src os) = true
        <-> count_events is_run_to_current evs = 1)
    /\ (fst (try_inject_page_fault proc dtb src os) = false
        <-> count_events is_run_to_current evs = 0)
    /\ (count_events is_inject evs = 1 ->
        exists code,
          let r := inject_interrupt (core_ os) PAGE_FAULT code src in
          fst (try_inject_page_fault proc dtb src os) = fst r
          /\ core_ (snd (try_inject_page_fault proc dtb src os))
             = (if fst r then run_to_current (snd r) else snd r)
          /\ (fst r = false ->
              In (EvLog "unable to inject page fault") evs)).
Proof.
  destruct (try_inject_page_fault_cases proc dtb src os)
    as [(evs & Heq & Hevs) | (p & v & sp & _ & _ & _ & _ & _ & _ & _ & Heq)].
  - exists evs. rewrite Heq. cbn [fst snd logged trace].
    destruct (refusal_events_counts evs Hevs) as (Hi & Hr & _).
    rewrite Hi, Hr. repeat split; try discriminate; auto.
  - cbv zeta in Heq. rewrite Heq. cbn [fst snd trace core_].
    eexists. split; [reflexivity|].
    set (code := if is_user_mode (register_read (core_ os) cs) then 4 else 0).
    destruct (inject_events_counts code src
                (fst (inject_interrupt (core_ os) PAGE_FAULT code src)))
      as (Hi & Hr & _).
    rewrite Hr.
    repeat split; try (destruct (fst (inject_interrupt _ _ _ _));
                       solve [discriminate | reflexivity | lia | auto]).
    intros _. exists code. cbv zeta. repeat split.
    intros Hf. rewrite Hf. unfold inject_events. cbn. auto 10.
Qed.

End PolicyMore.

(** ** More on the accessors *)

Section AccessorMore.

Context {Guest : Type} `{B : Backend Guest}.
Variable pfn_bits : Z.

Lemma walker_zero_page (p : Z) (proc : option proc_t) (dtb : dtb_t)
      (os : Os Guest) (nt : ntphy_t) :
  fst (virtual_to_physical pfn_bits p proc dtb os) = Some nt ->
  zero_page nt = false
  /\ (valid_page nt = false -> nt = page_fault_required).
Proof.
  rewrite virtual_to_physical_path. cbn [fst]. intros H.
  destruct (walk_path_shape pfn_bits _ _ _ _ H) as [->|[q ->]];
    split; auto; discriminate.
Qed.

Lemma read_page_of_resolved (p : Z) (proc : option proc_t) (dtb : dtb_t)
      (os : Os Guest) (nt : ntphy_t) :
  fst (virtual_to_physical pfn_bits p proc dtb os) = Some nt ->
  valid_page nt = true ->
  read_page pfn_bits p proc dtb os
  = (read_physical (core_ os) (ptr nt) PAGE_SIZE,
     logged [EvReadPhysical (ptr nt) PAGE_SIZE]
            (snd (virtual_to_physical pfn_bits p proc dtb os))).
Proof.
  intros Hw Hv. destruct (walker_zero_page _ _ _ _ _ Hw) as [Hz _].
  destruct (walker_frame pfn_bits p proc dtb os) as [path Hp].
  unfold read_page, bind.
  destruct (virtual_to_physical pfn_bits p proc dtb os) as [r os1].
  cbn [fst snd] in *. subst r os1. rewrite Hz, Hv. reflexivity.
Qed.

(** X15: when the walk resolves, read_page is one physical read of
    PAGE_SIZE bytes at the resolved address: it returns what that read
    delivers, reads no register, injects nothing, and leaves the guest and
    the counter as they were. *)
Theorem X15_read_page_resolved (p : Z) (proc : option proc_t) (dtb : dtb_t)
        (os : Os Guest) (nt : ntphy_t) :
  fst (virtual_to_physical pfn_bits p proc dtb os) = Some nt ->
  valid_page nt = true ->
  read_page pfn_bits p proc dtb os
  = (read_physical (core_ os) (ptr nt) PAGE_SIZE,
     logged [EvReadPhysical (ptr nt) PAGE_SIZE]
            (snd (virtual_to_physical pfn_bits p proc dtb os))).
Proof.
  intros Hw Hv. exact (read_page_of_resolved p proc dtb os nt Hw Hv).
Qed.

(** X16: when the walk resolves, write_page is one physical write of
    PAGE_SIZE bytes of the caller's data at the resolved address: it
    returns the answer of that write and leaves the guest that write left,
    the counter as it was. *)
Theorem X16_write_page_resolved (p : Z) (data : list byte)
        (proc : option proc_t) (dtb : dtb_t) (os : Os Guest) (nt : ntphy_t) :
  fst (virtual_to_physical pfn_bits p proc dtb os) = Some nt ->
  valid_page nt = true ->
  write_page pfn_bits p data proc dtb os
  = (fst (write_physical (core_ os) (ptr nt) data PAGE_SIZE),
     Build_Os (snd (write_physical (core_ os) (ptr nt) data PAGE_SIZE))
              (num_page_faults_ os)
              (trace (snd (virtual_to_physical pfn_bits p proc dtb os))
                     ++ [EvWritePhysical (ptr nt) PAGE_SIZE])).
Proof.
  intros Hw Hv.
  destruct (walker_frame pfn_bits p proc dtb os) as [path Hp].
  unfold write_page, bind.
  destruct (virtual_to_physical pfn_bits p proc dtb os) as [r os1].
  cbn [fst snd] in *. subst r os1. rewrite Hv.
  unfold memory_write_physical. cbn [core_ logged num_page_faults_ trace].
  destruct (write_physical (core_ os) (ptr nt) data PAGE_SIZE). reflexivity.
Qed.

(** X17: when a read of the walk fails, the three accessors fail at once:
    no register is read, nothing is injected, nothing else is read or
    written. *)
Theorem X17_walk_failure_fails_accessors (p : Z) (data : list byte)
        (proc : option proc_t) (dtb : dtb_t) (os : Os Guest) :
  fst (virtual_to_physical pfn_bits p proc dtb os) = None ->
  read_page pfn_bits p proc dtb os
  = (None, snd (virtual_to_physical pfn_bits p proc dtb os))
  /\ write_page pfn_bits p data proc dtb os
     = (false, snd (virtual_to_physical pfn_bits p proc dtb os))
  /\ Os_virtual_to_physical pfn_bits proc dtb p os
     = (None, snd (virtual_to_physical pfn_bits p proc dtb os)).
Proof.
  intros Hw. unfold read_page, write_page, Os_virtual_to_physical, bind.
  destruct (virtual_to_physical pfn_bits p proc dtb os) as [r os1].
  cbn [fst snd] in *. subst r. repeat split; reflexivity.
Qed.

(** What an accessor does after a walk that asked for a fault. *)
Lemma after_fault_required (proc : option proc_t) (dtb : dtb_t) (p : Z)
      (os1 : Os Guest) :
  (exists evs,
      try_inject_page_fault proc dtb p os1 = (false, logged evs os1)
      /\ count_events is_inject evs = 0
      /\ count_events is_run_to_current evs = 0
      /\ forall f, (forall r, f (EvRegisterRead r) = false) ->
                   count_events f evs = 0)
  \/
  (exists code g ok,
      inject_interrupt (core_ os1) PAGE_FAULT code p = (ok, g)
      /\ try_inject_page_fault proc dtb p os1
         = (ok, Build_Os (if ok then run_to_current g else g)
                         (num_page_faults_ os1 + 1)
                         (trace os1 ++ inject_events code p ok))).
Proof.
  destruct (try_inject_page_fault_cases proc dtb p os1)
    as [(evs & Heq & Hevs) | (pr & v & sp & _ & _ & _ & _ & _ & _ & _ & Heq)].
  - left. exists evs. split; [exact Heq|].
    destruct (refusal_events_counts evs Hevs) as (Hi & Hr & _).
    repeat split; auto.
    intros f Hf. unfold count_events.
    destruct Hevs as [->|[->| ->]]; cbn [filter]; rewrite ?Hf; reflexivity.
  - right. cbv zeta in Heq.
    set (code := if is_user_mode (register_read (core_ os1) cs) then 4 else 0)
      in *.
    exists code. destruct (inject_interrupt (core_ os1) PAGE_FAULT code p)
      as [ok g] eqn:E.
    exists g, ok. split; [reflexivity|exact Heq].
Qed.

Ltac count_pieces :=
  rewrite ?count_events_app;
  rewrite ?count_events_reads by reflexivity;
  repeat match goal with
         | H : forall f, _ -> count_events f ?evs = 0
           |- context [count_events ?g ?evs] =>
           rewrite (H g) by reflexivity
         end.

(** X18: read_page never writes.  It reads through the virtualised
    transport exactly when run-to-current has been invoked, that is, after
    an accepted and successful injection, and at most once; the counter
    grows by the number of injections of the call, at most one; and without
    an injection the guest is left as it was. *)
Theorem X18_read_page_effects (p : Z) (proc : option proc_t) (dtb : dtb_t)
        (os : Os Guest) :
  exists evs : list event,
    trace (snd (read_page pfn_bits p proc dtb os)) = trace os ++ evs
    /\ num_page_faults_ (snd (read_page pfn_bits p proc dtb os))
       = num_page_faults_ os + count_events is_inject evs
    /\ count_events is_inject evs <= 1
    /\ count_events is_read_virtual evs = count_events is_run_to_current evs
    /\ count_events is_run_to_current evs <= count_events is_inject evs
    /\ count_events is_write_physical evs = 0
    /\ count_events is_write_virtual evs = 0
    /\ (count_events is_inject evs = 0 ->
        core_ (snd (read_page pfn_bits p proc dtb os)) = core_ os).
Proof.
  remember (read_page pfn_bits p proc dtb os) as R eqn:HR.
  unfold read_page in HR. unfold bind at 1 in HR.
  rewrite virtual_to_physical_path in HR. cbn [fst snd] in HR.
  set (wp := walk_path pfn_bits (core_ os) p dtb) in *.
  destruct (fst wp) as [nt|] eqn:Hw.
  2:{ exists (reads (snd wp)). subst R. cbn [snd ret logged trace
        num_page_faults_ core_]. count_pieces. repeat split; auto; lia. }
  destruct (walk_path_shape pfn_bits _ _ _ _ Hw) as [->|[q ->]].
  2:{ cbn [zero_page valid_page ptr] in HR. subst R.
      exists (reads (snd wp) ++ [EvReadPhysical q PAGE_SIZE]).
      cbn [snd memory_read_physical logged trace num_page_faults_ core_].
      count_pieces. rewrite app_assoc. repeat split; auto; cbn; lia. }
  cbn [zero_page valid_page page_fault_required] in HR.
  unfold bind at 1 in HR.
  set (os1 := logged (reads (snd wp)) os) in *.
  destruct (after_fault_required proc dtb p os1)
    as [(evs & Heq & Hi & Hr & Hf) | (code & g & ok & Hinj & Heq)];
    rewrite Heq in HR.
  - cbn [negb] in HR. subst R. exists (reads (snd wp) ++ evs).
    cbn [snd ret logged trace num_page_faults_ core_ os1].
    count_pieces. rewrite ?Hi, ?Hr, app_assoc. repeat split; auto; lia.
  - destruct ok; cbn [negb] in HR; subst R.
    + exists (reads (snd wp) ++ inject_events code p true
                    ++ [EvReadVirtual (val dtb) p PAGE_SIZE]).
      cbn [snd memory_read_virtual_with_dtb logged trace num_page_faults_
               core_ os1].
      count_pieces. rewrite <- !app_assoc.
      repeat split; auto; cbn; lia.
    + exists (reads (snd wp) ++ inject_events code p false).
      cbn [snd ret logged trace num_page_faults_ core_ os1].
      count_pieces. rewrite app_assoc.
      repeat split; auto; cbn; lia.
Qed.

(** X19: write_page writes at most once, physically or through the
    virtualised transport, and exactly once when it returns true; it writes
    through the virtualised transport exactly when run-to-current has been
    invoked; the counter grows by the number of injections of the call, at
    most one; and a call that neither writes physically nor injects leaves
    the guest as it was. *)
Theorem X19_write_page_effects (p : Z) (data : list byte)
        (proc : option proc_t) (dtb : dtb_t) (os : Os Guest) :
  exists evs : list event,
    trace (snd (write_page pfn_bits p data proc dtb os)) = trace os ++ evs
    /\ num_page_faults_ (snd (write_page pfn_bits p data proc dtb os))
       = num_page_faults_ os + count_events is_inject evs
    /\ count_events is_inject evs <= 1
    /\ count_events is_write_virtual evs = count_events is_run_to_current evs
    /\ count_events is_write_physical evs + count_events is_write_virtual evs
       <= 1
    /\ (fst (write_page pfn_bits p data proc dtb os) = true ->
        count_events is_write_physical evs + count_events is_write_virtual evs
        = 1)
    /\ (count_events is_write_physical evs = 0 ->
        count_events is_inject evs = 0 ->
        core_ (snd (write_page pfn_bits p data proc dtb os)) = core_ os).
Proof.
  remember (write_page pfn_bits p data proc dtb os) as R eqn:HR.
  unfold write_page in HR. unfold bind at 1 in HR.
  rewrite virtual_to_physical_path in HR. cbn [fst snd] in HR.
  set (wp := walk_path pfn_bits (core_ os) p dtb) in *.
  destruct (fst wp) as [nt|] eqn:Hw.
  2:{ exists (reads (snd wp)). subst R. cbn [fst snd ret logged trace
        num_page_faults_ core_]. count_pieces.
      repeat split; auto; try lia; try discriminate. }
  destruct (walk_path_shape pfn_bits _ _ _ _ Hw) as [->|[q ->]].
  2:{ cbn [valid_page ptr] in HR. unfold memory_write_physical in HR.
      cbn [core_ logged num_page_faults_ trace] in HR.
      destruct (write_physical (core_ os) q data PAGE_SIZE) as [ok g].
      subst R. exists (reads (snd wp) ++ [EvWritePhysical q PAGE_SIZE]).
      cbn [fst snd trace num_page_faults_ core_].
      count_pieces. rewrite app_assoc.
      repeat split; auto; cbn; try lia; try discriminate. }
  cbn [valid_page page_fault_required] in HR.
  unfold bind at 1 in HR.
  set (os1 := logged (reads (snd wp)) os) in *.
  destruct (after_fault_required proc dtb p os1)
    as [(evs & Heq & Hi & Hr & Hf) | (code & g & ok & Hinj & Heq)];
    rewrite Heq in HR.
  - cbn [negb] in HR. subst R. exists (reads (snd wp) ++ evs).
    cbn [fst snd ret logged trace num_page_faults_ core_ os1].
    count_pieces. rewrite ?Hi, ?Hr, app_assoc.
    repeat split; auto; try lia; try discriminate.
  - destruct ok; cbn [negb] in HR.
    + unfold memory_write_virtual_with_dtb in HR.
      cbn [core_ num_page_faults_ trace] in HR.
      destruct (write_virtual_with_dtb (run_to_current g) dtb p data PAGE_SIZE)
        as [okw gw].
      subst R.
      exists (reads (snd wp) ++ inject_events code p true
                    ++ [EvWriteVirtual (val dtb) p PAGE_SIZE]).
      cbn [fst snd logged trace num_page_faults_ core_ os1].
      count_pieces. rewrite <- !app_assoc.
      repeat split; auto; cbn; try lia; try discriminate.
    + subst R. exists (reads (snd wp) ++ inject_events code p false).
      cbn [fst snd ret logged trace num_page_faults_ core_ os1].
      count_pieces. rewrite app_assoc.
      repeat split; auto; cbn; try lia; try discriminate.
Qed.

(** A returned address resolves in the guest that the call leaves. *)
Lemma translation_in_final_guest (proc : option proc_t)
      (dtb : dtb_t) (p : Z) (os : Os Guest) (phy : Z) :
  fst (Os_virtual_to_physical pfn_bits proc dtb p os) = Some phy ->
  fst (virtual_to_physical pfn_bits p proc dtb
         (snd (Os_virtual_to_physical pfn_bits proc dtb p os)))
  = Some (Build_ntphy_t phy true false).
Proof.
  intros Hphy.
  { remember (Os_virtual_to_physical pfn_bits proc dtb p os) as R eqn:HR.
    unfold Os_virtual_to_physical in HR. unfold bind at 1 in HR.
    rewrite virtual_to_physical_path in HR. cbn [fst snd] in HR.
    set (wp := walk_path pfn_bits (core_ os) p dtb) in *.
    destruct (fst wp) as [nt|] eqn:Hwp.
    2:{ subst R. discriminate Hphy. }
    destruct (walk_path_shape pfn_bits _ _ _ _ Hwp) as [->|[q ->]].
    2:{ cbn [valid_page ptr] in HR. subst R. cbn [fst snd ret] in *.
        injection Hphy as <-.
        rewrite virtual_to_physical_path. cbn [fst core_ logged].
        exact Hwp. }
    cbn [valid_page page_fault_required] in HR. unfold bind at 1 in HR.
    set (os1 := logged (reads (snd wp)) os) in *.
    destruct (after_fault_required proc dtb p os1)
      as [(evs & Heq & _) | (code & g & ok & Hinj & Heq)];
      rewrite Heq in HR.
    - cbn [negb] in HR. subst R. discriminate Hphy.
    - destruct ok; cbn [negb] in HR; [|subst R; discriminate Hphy].
      unfold bind at 1 in HR. rewrite virtual_to_physical_path in HR.
      cbn [fst snd core_] in HR.
      set (wp2 := walk_path pfn_bits (run_to_current g) p dtb) in *.
      destruct (fst wp2) as [nt2|] eqn:Hwp2; [|subst R; discriminate Hphy].
      destruct (walk_path_shape pfn_bits _ _ _ _ Hwp2) as [->|[q ->]];
        cbn [valid_page negb ptr page_fault_required] in HR; subst R;
        [discriminate Hphy|].
      cbn [fst snd ret] in *. injection Hphy as <-.
      rewrite virtual_to_physical_path. cbn [fst core_ logged].
      exact Hwp2. }
Qed.

(** X20: an address that nt::Os::virtual_to_physical returns is the
    address to which a walk resolves in the guest the call leaves behind
    (after the guest's fault handler ran, when a fault was injected); it is
    a 64-bit value with the page offset of the virtual address. *)
Theorem X20_translation_holds_in_final_guest (proc : option proc_t)
        (dtb : dtb_t) (p : Z) (os : Os Guest) (phy : Z) :
  fst (Os_virtual_to_physical pfn_bits proc dtb p os) = Some phy ->
  fst (virtual_to_physical pfn_bits p proc dtb
         (snd (Os_virtual_to_physical pfn_bits proc dtb p os)))
  = Some (Build_ntphy_t phy true false)
  /\ u64 phy /\ Z.land phy 0xFFF = Z.land p 0xFFF.
Proof.
  intros Hphy.
  pose proof (translation_in_final_guest proc dtb p os phy Hphy) as Hw.
  split; [exact Hw|].
  exact (resolved_address_offset pfn_bits _ _ _ _ _ Hw eq_refl).
Qed.

(** X21: after nt::Os::virtual_to_physical returned an address, calling
    it again in the state it left returns the same address after one walk,
    which only reads: no register read, no injection, the guest and the
    counter untouched. *)
Theorem X21_translation_repeats (proc : option proc_t) (dtb : dtb_t) (p : Z)
        (os : Os Guest) (phy : Z) :
  fst (Os_virtual_to_physical pfn_bits proc dtb p os) = Some phy ->
  exists path : list Z,
    Os_virtual_to_physical pfn_bits proc dtb p
      (snd (Os_virtual_to_physical pfn_bits proc dtb p os))
    = (Some phy,
       logged (reads path)
              (snd (Os_virtual_to_physical pfn_bits proc dtb p os))).
Proof.
  intros Hphy.
  pose proof (translation_in_final_guest proc dtb p os phy Hphy) as Hw.
  set (os' := snd (Os_virtual_to_physical pfn_bits proc dtb p os)) in *.
  destruct (walker_frame pfn_bits p proc dtb os') as [path Hp].
  exists path. unfold Os_virtual_to_physical at 1. unfold bind.
  destruct (virtual_to_physical pfn_bits p proc dtb os') as [r os1].
  cbn [fst snd] in *. subst r os1. reflexivity.
Qed.

(** X22: after nt::Os::virtual_to_physical returned an address, read_page
    of the same virtual address in the state it left is the physical read of
    PAGE_SIZE bytes at that address, after one walk, without injection. *)
Theorem X22_read_page_after_translation (proc : option proc_t) (dtb : dtb_t)
        (p : Z) (os : Os Guest) (phy : Z) :
  fst (Os_virtual_to_physical pfn_bits proc dtb p os) = Some phy ->
  exists path : list Z,
    read_page pfn_bits p proc dtb
      (snd (Os_virtual_to_physical pfn_bits proc dtb p os))
    = (read_physical
         (core_ (snd (Os_virtual_to_physical pfn_bits proc dtb p os)))
         phy PAGE_SIZE,
       logged (reads path ++ [EvReadPhysical phy PAGE_SIZE])
              (snd (Os_virtual_to_physical pfn_bits proc dtb p os))).
Proof.
  intros Hphy.
  pose proof (translation_in_final_guest proc dtb p os phy Hphy) as Hw.
  set (os' := snd (Os_virtual_to_physical pfn_bits proc dtb p os)) in *.
  destruct (walker_frame pfn_bits p proc dtb os') as [path Hp].
  exists path.
  rewrite (read_page_of_resolved p proc dtb os' _ Hw eq_refl).
  rewrite Hp. cbn [ptr]. rewrite logged_app. reflexivity.
Qed.

End AccessorMore.

(** ** Instances of the further properties *)

(** The page of [guest_4k]: frame 5, offset 0x123. *)
Lemma X5_translation_keeps_page_offset_witness :
  u64 0x5123 /\ Z.land 0x5123 0xFFF = Z.land 0x123 0xFFF.
Proof.
  refine (X5_translation_keeps_page_offset 36 0x123 None dtb_1000
            (mock_os guest_4k) (Build_ntphy_t 0x5123 true false) _ _);
    by_evaluation.
Defined.

(** A non-canonical address with the low 48 bits of 0x123. *)
Lemma X6_walker_ignores_upper_bits_witness :
  virtual_to_physical 36 0x123 None dtb_1000 (mock_os guest_4k)
  = virtual_to_physical 36 0xFFFF000000000123 None dtb_1000 (mock_os guest_4k).
Proof.
  refine (X6_walker_ignores_upper_bits 36 0x123 0xFFFF000000000123 None
            dtb_1000 (mock_os guest_4k) _).
  by_evaluation.
Defined.

(** A DTB with low bits and bit 63 set. *)
Lemma X7_walker_masks_the_dtb_witness :
  virtual_to_physical 36 0x123 None dtb_1000 (mock_os guest_4k)
  = virtual_to_physical 36 0x123 None (Build_dtb_t 0x8000000000001FFF)
                        (mock_os guest_4k).
Proof.
  refine (X7_walker_masks_the_dtb 36 0x123 None dtb_1000
            (Build_dtb_t 0x8000000000001FFF) (mock_os guest_4k) _).
  by_evaluation.
Defined.

(** Two addresses of page 0. *)
Lemma X8_same_page_same_frame_witness :
  snd (virtual_to_physical 36 0x123 None dtb_1000 (mock_os guest_4k))
  = snd (virtual_to_physical 36 0xFFF None dtb_1000 (mock_os guest_4k))
  /\ option_map frame_of
       (fst (virtual_to_physical 36 0x123 None dtb_1000 (mock_os guest_4k)))
     = option_map frame_of
         (fst (virtual_to_physical 36 0xFFF None dtb_1000 (mock_os guest_4k))).
Proof.
  refine (X8_same_page_same_frame 36 0x123 0xFFF None dtb_1000
            (mock_os guest_4k) _).
  by_evaluation.
Defined.

(** CR8 = 2. *)
Lemma X11_dispatch_level_refused_witness :
  try_inject_page_fault (Some proc_1) dtb_1000 0x10800 (mock_os guest_dispatch)
  = (false, logged [EvRegisterRead cr8] (mock_os guest_dispatch)).
Proof.
  refine (X11_dispatch_level_refused proc_1 dtb_1000 0x10800
            (mock_os guest_dispatch) _ _).
  - by_evaluation.
  - cbn. lia.
Defined.

(** CR3 = 0x1000 against a process with DTBs 0x7000 and 0x8000. *)
Lemma X12_cr3_mismatch_refused_witness :
  try_inject_page_fault (Some proc_2) dtb_1000 0x10800
                        (mock_os guest_paged_out)
  = (false, logged [EvRegisterRead cr8; EvRegisterRead cr3]
                   (mock_os guest_paged_out)).
Proof.
  refine (X12_cr3_mismatch_refused proc_2 dtb_1000 0x10800
            (mock_os guest_paged_out) _ _ _ _).
  - by_evaluation.
  - cbn. lia.
  - cbn. lia.
  - cbn. lia.
Defined.

(** The fault injected on [guest_paged_out]. *)
Lemma X13_injected_fault_parameters_witness :
  14 = 14 /\ 0x10800 = 0x10800
  /\ 4 = (if is_user_mode (register_read guest_paged_out cs) then 4 else 0)
  /\ exists rest,
      inject_events 4 0x10800 true
      = [EvRegisterRead cr8; EvRegisterRead cr3; EvRegisterRead cs;
         EvInjectInterrupt 14 4 0x10800] ++ rest.
Proof.
  refine (X13_injected_fault_parameters (Some proc_1) dtb_1000 0x10800
            (mock_os guest_paged_out) (inject_events 4 0x10800 true)
            14 4 0x10800 _ _).
  - by_evaluation.
  - cbn. auto 10.
Defined.

(** The page of frame 5 of [guest_4k_data]. *)
Lemma X15_read_page_resolved_witness :
  fst (read_page 36 0 None dtb_1000 (mock_os guest_4k_data))
  = Some (le_bytes 4096 0x11223344).
Proof.
  refine (f_equal fst
            (X15_read_page_resolved 36 0 None dtb_1000 (mock_os guest_4k_data)
               (Build_ntphy_t 0x5000 true false) _ _));
    by_evaluation.
Defined.

(** The scripted transport refuses every write. *)
Lemma X16_write_page_resolved_witness :
  write_page 36 0 [] None dtb_1000 (mock_os guest_4k)
  = (false,
     Build_Os guest_4k 0
              [EvReadPhysical 0x1000 8; EvReadPhysical 0x2000 8;
               EvReadPhysical 0x3000 8; EvReadPhysical 0x4000 8;
               EvWritePhysical 0x5000 PAGE_SIZE]).
Proof.
  refine (X16_write_page_resolved 36 0 [] None dtb_1000 (mock_os guest_4k)
            (Build_ntphy_t 0x5000 true false) _ _);
    by_evaluation.
Defined.

(** No page table at 0x9000. *)
Lemma X17_walk_failure_fails_accessors_witness :
  read_page 36 0 (Some proc_1) (Build_dtb_t 0x9000) (mock_os guest_paged_out)
  = (None, Build_Os guest_paged_out 0 [EvReadPhysical 0x9000 8]).
Proof.
  refine (proj1 (X17_walk_failure_fails_accessors 36 0 [] (Some proc_1)
                   (Build_dtb_t 0x9000) (mock_os guest_paged_out) _)).
  by_evaluation.
Defined.

(** The translation of 0x10800 after the fault handler mapped frame 5. *)
Lemma X20_translation_holds_in_final_guest_witness :
  fst (virtual_to_physical 36 0x10800 (Some proc_1) dtb_1000
         (snd (Os_virtual_to_physical 36 (Some proc_1) dtb_1000 0x10800
                 (mock_os guest_paged_out))))
  = Some (Build_ntphy_t 0x5800 true false)
  /\ u64 0x5800 /\ Z.land 0x5800 0xFFF = Z.land 0x10800 0xFFF.
Proof.
  refine (X20_translation_holds_in_final_guest 36 (Some proc_1) dtb_1000
            0x10800 (mock_os guest_paged_out) 0x5800 _).
  by_evaluation.
Defined.

Lemma X21_translation_repeats_witness :
  exists path,
    Os_virtual_to_physical 36 (Some proc_1) dtb_1000 0x10800
      (snd (Os_virtual_to_physical 36 (Some proc_1) dtb_1000 0x10800
              (mock_os guest_paged_out)))
    = (Some 0x5800,
       logged (reads path)
              (snd (Os_virtual_to_physical 36 (Some proc_1) dtb_1000 0x10800
                      (mock_os guest_paged_out)))).
Proof.
  refine (X21_translation_repeats 36 (Some proc_1) dtb_1000 0x10800
            (mock_os guest_paged_out) 0x5800 _).
  by_evaluation.
Defined.

Lemma X22_read_page_after_translation_witness :
  exists path,
    read_page 36 0x10800 (Some proc_1) dtb_1000
      (snd (Os_virtual_to_physical 36 (Some proc_1) dtb_1000 0x10800
              (mock_os guest_paged_out)))
    = (read_physical
         (core_ (snd (Os_virtual_to_physical 36 (Some proc_1) dtb_1000 0x10800
                        (mock_os guest_paged_out))))
         0x5800 PAGE_SIZE,
       logged (reads path ++ [EvReadPhysical 0x5800 PAGE_SIZE])
              (snd (Os_virtual_to_physical 36 (Some proc_1) dtb_1000 0x10800
                      (mock_os guest_paged_out)))).
Proof.
  refine (X22_read_page_after_translation 36 (Some proc_1) dtb_1000 0x10800
            (mock_os guest_paged_out) 0x5800 _).
  by_evaluation.
Defined.

(** ** Validity along the path, and the table lookups *)

Section PathMore.

Context {Guest : Type} `{B : Backend Guest}.
Variable pfn_bits : Z.

Ltac walk_cases' :=
  repeat match goal with
         | |- context [if negb (Valid ?e) then _ else _] =>
           let V := fresh "V" in destruct (Valid e) eqn:V; cbn [negb]
         | |- context [if LargePage ?e then _ else _] =>
           let L := fresh "L" in destruct (LargePage e) eqn:L
         | |- context [match entry_at ?g ?a with _ => _ end] =>
           let E := fresh "E" in destruct (entry_at g a) eqn:E
         end.

Lemma walk_path_validity (g : Guest) (p : Z) (dtb : dtb_t) (r : ntphy_t) :
  fst (walk_path pfn_bits g p dtb) = Some r ->
  (valid_page r = true ->
   Forall (read_valid g) (snd (walk_path pfn_bits g p dtb)))
  /\ (valid_page r = false ->
      exists pre a e,
        snd (walk_path pfn_bits g p dtb) = pre ++ [a]
        /\ Forall (read_valid g) pre
        /\ entry_at g a = Some e /\ Valid e = false).
Proof.
  unfold walk_path. cbv zeta.
  generalize (Build_virt_t (read_le64 (le_bytes 8 p))) as virt.
  generalize (pml4e_ptr dtb p) as a1. intros a1 virt.
  walk_cases'; cbn [fst snd]; intros Hr; inversion Hr; subst r;
    (split; intros Hv; try discriminate Hv);
    try (repeat (constructor; [eexists; split; eassumption|]); constructor).
  - exists [a1; next_ptr pfn_bits m (pdp virt);
            next_ptr pfn_bits m0 (pd virt)].
    do 2 eexists. split; [reflexivity|]. split; [|split; eassumption].
    repeat (constructor; [eexists; split; eassumption|]); constructor.
  - exists [a1; next_ptr pfn_bits m (pdp virt)].
    do 2 eexists. split; [reflexivity|]. split; [|split; eassumption].
    repeat (constructor; [eexists; split; eassumption|]); constructor.
  - exists [a1].
    do 2 eexists. split; [reflexivity|]. split; [|split; eassumption].
    repeat (constructor; [eexists; split; eassumption|]); constructor.
  - exists []. do 2 eexists. split; [reflexivity|].
    split; [constructor|split; eassumption].
Qed.

(** X24: a walk resolves only through Valid entries: every entry it read
    was delivered with Valid=1; and it asks for a fault only when the last
    entry it read has Valid=0, every entry before it being Valid. *)
Theorem X24_validity_along_the_path (p : Z) (proc : option proc_t)
        (dtb : dtb_t) (os : Os Guest) (r : ntphy_t) :
  fst (virtual_to_physical pfn_bits p proc dtb os) = Some r ->
  exists path : list Z,
    snd (virtual_to_physical pfn_bits p proc dtb os) = logged (reads path) os
    /\ (valid_page r = true ->
        Forall (fun a => exists e, entry_at (core_ os) a = Some e
                                   /\ Valid e = true) path)
    /\ (valid_page r = false ->
        exists pre a e,
          path = pre ++ [a]
          /\ Forall (fun a => exists e, entry_at (core_ os) a = Some e
                                        /\ Valid e = true) pre
          /\ entry_at (core_ os) a = Some e /\ Valid e = false).
Proof.
  rewrite virtual_to_physical_path. cbn [fst snd]. intros Hr.
  exists (snd (walk_path pfn_bits (core_ os) p dtb)).
  split; [reflexivity|].
  exact (walk_path_validity (core_ os) p dtb r Hr).
Qed.

Lemma table_lookup_address (e : MMPTE) (index : Z) :
  u64 (value e) -> 0 <= index < 512 ->
  next_ptr pfn_bits e index = PageFrameNumber pfn_bits e * 4096 + index * 8
  /\ next_ptr pfn_bits e index < 2 ^ 64.
Proof.
  intros Hu Hi. pose proof (PageFrameNumber_range pfn_bits e Hu) as Hp.
  unfold next_ptr, PAGE_SIZE. change 0x1000 with 4096.
  rewrite (wrap64_small (PageFrameNumber pfn_bits e * 4096))
    by (unfold u64; lia).
  rewrite wrap64_small by (unfold u64; lia).
  split; [reflexivity|lia].
Qed.

(** X25: the table lookups of the three lower levels never wrap: for an
    entry that holds a 64-bit value, read_pdpe, read_pde and read_pte read
    8 bytes at [PageFrameNumber * 4096 + 8 * index], inside the 4 KiB table
    that the entry names, the index being the 9-bit field of the virtual
    address for that level; they return the entry read, or nothing when the
    read fails. *)
Theorem X25_table_lookups_stay_in_table (virt : virt_t) (e : MMPTE)
        (os : Os Guest) :
  u64 (value e) ->
  let base := PageFrameNumber pfn_bits e * 4096 in
  (read_pdpe pfn_bits virt e os
   = (entry_at (core_ os) (base + pdp virt * 8),
      logged [EvReadPhysical (base + pdp virt * 8) 8] os)
   /\ read_pde pfn_bits virt e os
      = (entry_at (core_ os) (base + pd virt * 8),
         logged [EvReadPhysical (base + pd virt * 8) 8] os)
   /\ read_pte pfn_bits virt e os
      = (entry_at (core_ os) (base + pt virt * 8),
         logged [EvReadPhysical (base + pt virt * 8) 8] os))
  /\ (0 <= pdp virt * 8 < 4096 /\ 0 <= pd virt * 8 < 4096
      /\ 0 <= pt virt * 8 < 4096)
  /\ base + 4096 <= 2 ^ 64.
Proof.
  intros Hu base.
  pose proof (bitfield_range (virt_value virt) 30 9 ltac:(lia)) as Hpdp.
  pose proof (bitfield_range (virt_value virt) 21 9 ltac:(lia)) as Hpd.
  pose proof (bitfield_range (virt_value virt) 12 9 ltac:(lia)) as Hpt.
  fold (pdp virt) in Hpdp. fold (pd virt) in Hpd. fold (pt virt) in Hpt.
  change (2 ^ 9) with 512 in *.
  pose proof (PageFrameNumber_range pfn_bits e Hu) as Hp.
  split; [|split; [lia|unfold base; lia]].
  unfold read_pdpe, read_pde, read_pte. cbv zeta.
  rewrite !read_entry_logged.
  fold (next_ptr pfn_bits e (pdp virt)).
  fold (next_ptr pfn_bits e (pd virt)).
  fold (next_ptr pfn_bits e (pt virt)).
  destruct (table_lookup_address e (pdp virt) Hu Hpdp) as [-> _].
  destruct (table_lookup_address e (pd virt) Hu Hpd) as [-> _].
  destruct (table_lookup_address e (pt virt) Hu Hpt) as [-> _].
  repeat split; reflexivity.
Qed.

(** X26: read_pml4e reads 8 bytes inside the 4 KiB table at the bits
    [51:12] of the DTB, at 8 times the PML4 index: the address is below
    2^52 and does not wrap, whatever the DTB and the virtual address. *)
Theorem X26_pml4_lookup_stays_in_table (virt : virt_t) (dtb : dtb_t)
        (os : Os Guest) :
  let base := Z.land (val dtb) 0xFFFFFFFFFF000 in
  read_pml4e virt dtb os
  = (entry_at (core_ os) (base + pml4 virt * 8),
     logged [EvReadPhysical (base + pml4 virt * 8) 8] os)
  /\ 0 <= pml4 virt * 8 < 4096
  /\ 0 <= base /\ base + 4096 <= 2 ^ 52
  /\ base mod 4096 = 0.
Proof.
  intros base.
  pose proof (bitfield_range (virt_value virt) 39 9 ltac:(lia)) as Hi.
  fold (pml4 virt) in Hi. change (2 ^ 9) with 512 in Hi.
  assert (Hb : 0 <= base < 2 ^ 52).
  { unfold base. apply land_bound_r; lia. }
  assert (Hm : base mod 4096 = 0).
  { unfold base. change 4096 with (2 ^ 12).
    rewrite <- Z.land_ones by lia. rewrite <- Z.land_assoc.
    apply Z.land_0_r. }
  assert (Hle : base + 4096 <= 2 ^ 52).
  { pose proof (Z.div_mod base 4096 ltac:(lia)) as Hd. rewrite Hm in Hd.
    assert (base / 4096 < 2 ^ 40) by (apply Z.div_lt_upper_bound; lia).
    lia. }
  split; [|repeat split; lia].
  unfold read_pml4e. cbv zeta. rewrite read_entry_logged.
  change (shl64 (mask 40) 12) with 0xFFFFFFFFFF000. fold base.
  rewrite wrap64_small by (unfold u64; lia). reflexivity.
Qed.

End PathMore.

Section PolicySilence.

Context {Guest : Type} `{B : Backend Guest}.

(** X23: a refusal is silent: when a call of try_inject_page_fault does
    not inject, it returns false, leaves the guest and the counter as they
    were, logs nothing, and has read at most CR8 and CR3, in that order; CS
    is read only on the way to an injection. *)
Theorem X23_refusal_is_silent (proc : option proc_t) (dtb : dtb_t) (src : Z)
        (os : Os Guest) (evs : list event) :
  trace (snd (try_inject_page_fault proc dtb src os)) = trace os ++ evs ->
  count_events is_inject evs = 0 ->
  try_inject_page_fault proc dtb src os = (false, logged evs os)
  /\ (evs = [] \/ evs = [EvRegisterRead cr8]
      \/ evs = [EvRegisterRead cr8; EvRegisterRead cr3]).
Proof.
  intros Ht Hc.
  destruct (try_inject_page_fault_cases proc dtb src os)
    as [(evs' & Heq & Hevs) | (p & v & sp & _ & _ & _ & _ & _ & _ & _ & Heq)].
  - rewrite Heq in Ht. cbn [snd logged trace] in Ht.
    apply app_inv_head in Ht. subst evs'. auto.
  - exfalso. cbv zeta in Heq. rewrite Heq in Ht. cbn [snd trace] in Ht.
    apply app_inv_head in Ht. subst evs.
    destruct (fst (inject_interrupt _ _ _ _)); discriminate Hc.
Qed.

End PolicySilence.

(** The refusal at dispatch level on [guest_dispatch]. *)
Lemma X23_refusal_is_silent_witness :
  try_inject_page_fault (Some proc_1) dtb_1000 0x10800 (mock_os guest_dispatch)
  = (false, logged [EvRegisterRead cr8] (mock_os guest_dispatch))
  /\ ([EvRegisterRead cr8] = [] \/ [EvRegisterRead cr8] = [EvRegisterRead cr8]
      \/ [EvRegisterRead cr8] = [EvRegisterRead cr8; EvRegisterRead cr3]).
Proof.
  refine (X23_refusal_is_silent (Some proc_1) dtb_1000 0x10800
            (mock_os guest_dispatch) [EvRegisterRead cr8] _ _);
    by_evaluation.
Defined.

(** The fault-required walk of [guest_paged_out]: three Valid entries, then
    the PTE with Valid=0. *)
Lemma X24_validity_along_the_path_witness :
  exists path : list Z,
    snd (virtual_to_physical 36 0x10800 None dtb_1000 (mock_os guest_paged_out))
    = logged (reads path) (mock_os guest_paged_out)
    /\ (valid_page page_fault_required = true ->
        Forall (fun a => exists e, entry_at guest_paged_out a = Some e
                                   /\ Valid e = true) path)
    /\ (valid_page page_fault_required = false ->
        exists pre a e,
          path = pre ++ [a]
          /\ Forall (fun a => exists e, entry_at guest_paged_out a = Some e
                                        /\ Valid e = true) pre
          /\ entry_at guest_paged_out a = Some e /\ Valid e = false).
Proof.
  refine (X24_validity_along_the_path 36 0x10800 None dtb_1000
            (mock_os guest_paged_out) page_fault_required _).
  by_evaluation.
Defined.

(** The PML4 entry 0x2001 of the scripted guests, for the address 0x10800. *)
Lemma X25_table_lookups_stay_in_table_witness :
  read_pdpe 36 (Build_virt_t 0x10800) (Build_MMPTE 0x2001) (mock_os guest_4k)
  = (Some (Build_MMPTE 0x3001),
     Build_Os guest_4k 0 [EvReadPhysical 0x2000 8]).
Proof.
  refine (eq_trans
            (proj1 (proj1 (X25_table_lookups_stay_in_table 36
                             (Build_virt_t 0x10800) (Build_MMPTE 0x2001)
                             (mock_os guest_4k) _))) _).
  - unfold u64. cbn. lia.
  - by_evaluation.
Defined.
